(** * Custom learned optimizer architectures

    A shallow embedding of the three example learned optimizers of
    [docs/notebooks/Part6_custom_learned_optimizers.ipynb]:
    [MetaSGDWD], [PerParamMLP] and [HParamControllerLOPT], together with
    their state records.

    The notebook is glue code around jax, jax.numpy and haiku.  Those
    libraries are not part of the repository: their array type and
    operations are taken as parameters (classes [Numpy] and [Haiku]); the
    part of jax that the glue code depends on structurally, pytrees and
    [jax.tree_map], is written out.  Python exceptions are results
    [Raise e]. *)

From Stdlib Require Import ZArith QArith Lia.
From stdpp Require Import base list strings.

(** ** Python results: a value or a raised exception *)

Inductive exn := AssertionError | KeyError | TypeError | ValueError.

Inductive result (A : Type) : Type :=
| Ok (a : A)
| Raise (e : exn).
Arguments Ok {A} a.
Arguments Raise {A} e.

#[global] Instance result_ret : MRet result := @Ok.
#[global] Instance result_bind : MBind result :=
  fun A B f m => match m with Ok a => f a | Raise e => Raise e end.
#[global] Instance result_fmap : FMap result :=
  fun A B f m => match m with Ok a => Ok (f a) | Raise e => Raise e end.

Definition is_Ok {A} (m : result A) : Prop := exists a, m = Ok a.

(** Binary operators evaluate the left operand, then the right one, then
    apply; an exception of an operand propagates. *)
Definition lift2 {A} (op : A -> A -> result A) (x y : result A) : result A :=
  a ← x; b ← y; op a b.

(** ** Pytrees

    jax sees every Python value as a tree: [None], tuples, lists and dicts
    are inner nodes, anything else is a leaf.  A node is its type, the data
    of the type (the keys of a dict, in jax's sorted order) and its
    children, as in jax's [PyTreeDef]. *)

Inductive node_kind := KNone | KTuple | KList | KDict (keys : list string).

#[global] Instance node_kind_eq_dec : EqDecision node_kind.
Proof. solve_decision. Defined.

#[local] Unset Elimination Schemes.
Inductive pytree (A : Type) : Type :=
| Leaf (a : A)
| Node (k : node_kind) (children : list (pytree A)).
#[local] Set Elimination Schemes.
Arguments Leaf {A} a.
Arguments Node {A} k children.

(** Python's [None]. *)
Definition py_None {A} : pytree A := Node KNone [].

(** [v is None] *)
Definition is_None {A} (v : pytree A) : bool :=
  match v with Node KNone [] => true | _ => false end.

(** A dict literal [{k1: v1, ...}], entries listed by sorted key. *)
Definition dict {A} (kvs : list (string * pytree A)) : pytree A :=
  Node (KDict (kvs.*1)) (kvs.*2).

Fixpoint lookup_key {A} (key : string) (keys : list string) (vals : list A)
  : option A :=
  match keys, vals with
  | k :: keys', v :: vals' => if decide (key = k) then Some v else lookup_key key keys' vals'
  | _, _ => None
  end.

(** [d[key]]: [KeyError] when the dict has no such key, [TypeError] when
    [d] is not subscriptable by a string. *)
Definition getitem {A} (d : pytree A) (key : string) : result (pytree A) :=
  match d with
  | Node (KDict keys) vals =>
      match lookup_key key keys vals with
      | Some v => Ok v
      | None => Raise KeyError
      end
  | _ => Raise TypeError
  end.

(** A value used as an operand of array arithmetic: a container ([None],
    tuple, list, dict) is rejected with [TypeError]. *)
Definition as_array {A} (v : pytree A) : result A :=
  match v with
  | Leaf a => Ok a
  | Node _ _ => Raise TypeError
  end.

Section MapM2.
Context {A B C : Type} (f : A -> B -> result C).

(** Pairwise map of two lists of children; different lengths are a
    structure mismatch. *)
Fixpoint mapM2 (xs : list A) (ys : list B) : result (list C) :=
  match xs, ys with
  | [], [] => Ok []
  | x :: xs', y :: ys' => z ← f x y; zs ← mapM2 xs' ys'; Ok (z :: zs)
  | _, _ => Raise ValueError
  end.
End MapM2.

Module jax.

(** [jax.tree_leaves] *)
Fixpoint tree_leaves {A} (t : pytree A) : list A :=
  match t with
  | Leaf a => [a]
  | Node _ ts => flat_map tree_leaves ts
  end.

(** [jax.tree_map(f, tree)] for an [f] that does not raise. *)
Fixpoint tree_map {A B} (f : A -> B) (t : pytree A) : pytree B :=
  match t with
  | Leaf a => Leaf (f a)
  | Node k ts => Node k (map (tree_map f) ts)
  end.

(** [jax.tree_structure]: the tree with its leaves forgotten. *)
Definition tree_structure {A} (t : pytree A) : pytree unit :=
  tree_map (fun _ => tt) t.

(** The value at a position of a tree: [path] lists the indices of the
    children to descend into (for a dict, the index in the sorted keys). *)
Fixpoint subtree {A} (path : list nat) (t : pytree A) : option (pytree A) :=
  match path with
  | [] => Some t
  | i :: path' =>
      match t with
      | Leaf _ => None
      | Node _ ts =>
          match ts !! i with
          | Some t' => subtree path' t'
          | None => None
          end
      end
  end.

(** The leaf at a position, if the tree has a leaf there. *)
Definition leaf_at {A} (path : list nat) (t : pytree A) : option A :=
  match subtree path t with
  | Some (Leaf a) => Some a
  | _ => None
  end.

(** The structure check of [jax.tree_map(f, tree, *rest)], made before
    any call of [f]: every tree of [rest] is flattened up to the structure
    of [tree].  Where [tree] has a leaf, whatever the other tree holds
    there, leaf or container, is handed to [f].  Where [tree] has [None],
    the other tree is not looked at.  Where [tree] has a tuple, list or
    dict, the other tree must have a node of the same type, data and
    arity ([ValueError] otherwise). *)
Fixpoint tree_zip {A B} (t : pytree A) (r : pytree B) {struct t}
  : result (pytree (A * pytree B)) :=
  match t with
  | Leaf a => Ok (Leaf (a, r))
  | Node k ts =>
      match k, ts with
      | KNone, [] => Ok (Node KNone [])
      | _, _ =>
          match r with
          | Leaf _ => Raise ValueError
          | Node k' rs =>
              if decide (k = k') then Node k <$> mapM2 tree_zip ts rs
              else Raise ValueError
          end
      end
  end.

(** Calling [f] on the leaves, left to right; the first exception
    propagates. *)
Fixpoint tree_mapM {A B} (f : A -> result B) (t : pytree A)
  : result (pytree B) :=
  match t with
  | Leaf a => Leaf <$> f a
  | Node k ts => Node k <$> mapM (tree_mapM f) ts
  end.

(** [jax.tree_map(f, tree, rest)]: [f] gets a leaf of [tree] and what
    [rest] holds at the same position. *)
Definition tree_map2 {A B C} (f : A -> pytree B -> result C)
  (tree : pytree A) (rest : pytree B) : result (pytree C) :=
  z ← tree_zip tree rest;
  tree_mapM (fun '(a, b) => f a b) z.

(** [jax.tree_map(f, tree, rest1, rest2)] *)
Definition tree_map3 {A B C D} (f : A -> pytree B -> pytree C -> result D)
  (tree : pytree A) (rest1 : pytree B) (rest2 : pytree C)
  : result (pytree D) :=
  z ← tree_zip tree rest1;
  z' ← tree_zip z rest2;
  tree_mapM (fun '(a, b, c) => f a b c) z'.

End jax.

(** ** int32 scalars

    [iteration] is created as [jnp.asarray(0, dtype=jnp.int32)]; adding to
    it wraps around in two's complement. *)

Definition int32_wrap (z : Z) : Z := ((z + 2 ^ 31) mod 2 ^ 32 - 2 ^ 31)%Z.
Definition int32_add (a b : Z) : Z := int32_wrap (a + b).
Definition INT32_MAX : Z := (2 ^ 31 - 1)%Z.
Definition INT32_MIN : Z := (- 2 ^ 31)%Z.

(** ** The external numerical libraries

    Python floats and jax.numpy arrays, with the operations the notebook
    calls.  Binary array arithmetic broadcasts and raises when the shapes
    are incompatible; [zeros_like] keeps the shape and holds only zeros. *)

Class Numpy (float arr : Type) := {
  (** a float literal of the Python source *)
  float_lit : Q -> float;
  (** Python [a - b] on floats *)
  float_sub : float -> float -> float;
  (** a Python scalar entering array arithmetic *)
  jnp_asarray : float -> arr;
  jnp_add : arr -> arr -> result arr;
  jnp_sub : arr -> arr -> result arr;
  jnp_mul : arr -> arr -> result arr;
  jnp_exp : arr -> arr;
  jnp_log : arr -> arr;
  jnp_shape : arr -> list nat;
  jnp_zeros : list nat -> arr;
  jnp_zeros_like : arr -> arr;
  (** [jnp.asarray([a, b, c])]: stacking along a new leading axis *)
  jnp_stack : list arr -> result arr;
  jnp_transpose : arr -> list nat -> result arr;
  jnp_reshape : arr -> list nat -> result arr;
  (** [a[..., i]] *)
  jnp_index_last : arr -> nat -> result arr;
  (** every entry of the array is zero *)
  all_zeros : arr -> Prop;
  jnp_zeros_like_shape : forall a, jnp_shape (jnp_zeros_like a) = jnp_shape a;
  jnp_zeros_like_zeros : forall a, all_zeros (jnp_zeros_like a);
}.

(** haiku: the layers the notebook calls, applied with the parameters of
    the transformed function. *)
Class Haiku (arr PRNGKey : Type) := {
  (** [hk.nets.MLP(output_sizes)(features)] *)
  hk_MLP : pytree arr -> list nat -> arr -> result arr;
  (** [hk.LSTM(hidden_size)(input, prev_state)] *)
  hk_LSTM : pytree arr -> nat -> arr -> pytree arr -> result (arr * pytree arr);
  (** [hk.LSTM(hidden_size).initial_state(batch_size)] *)
  hk_LSTM_initial_state : nat -> nat -> pytree arr;
  (** [hk.Linear(output_size)(x)] *)
  hk_Linear : pytree arr -> nat -> arr -> result arr;
  (** [hk.transform(f).init(key, args...)]: the parameters created by the
      layers met while running [f] on the example arguments.  A
      transformed function is a function of its parameters;
      [hk.transform(f).apply(params, args...)] is the call
      [f params args...]. *)
  hk_init : forall X : Type, PRNGKey -> (pytree arr -> result X) -> result (pytree arr);
}.
Arguments hk_init {arr PRNGKey _ X} _ _.

Declare Scope jnp_scope.
Delimit Scope jnp_scope with jnp.
Notation "x + y" := (lift2 jnp_add x y) : jnp_scope.
Notation "x - y" := (lift2 jnp_sub x y) : jnp_scope.
Notation "x * y" := (lift2 jnp_mul x y) : jnp_scope.

(** ** Attributes of a dataclass instance *)

Inductive attr (arr : Type) : Type :=
| AValue (v : pytree arr)
| AInt32 (z : Z).
Arguments AValue {arr} v.
Arguments AInt32 {arr} z.

(** ** The [Optimizer] interface of the library

    [update]'s keyword arguments default to [None]; an optimizer that does
    not name [loss] receives it in its [**kwargs] and ignores it. *)

Record kwargs (arr : Type) : Type := mk_kwargs {
  kw_loss : pytree arr;
  kw_model_state : pytree arr;
}.
Arguments mk_kwargs {arr} _ _.
Arguments kw_loss {arr} _.
Arguments kw_model_state {arr} _.

Definition no_kwargs {arr} : kwargs arr := mk_kwargs py_None py_None.

Record Optimizer (arr State : Type) : Type := mk_Optimizer {
  opt_init : pytree arr -> pytree arr -> result State;
  opt_update : State -> pytree arr -> kwargs arr -> result State;
}.
Arguments mk_Optimizer {arr State} _ _.
Arguments opt_init {arr State} _ _ _.
Arguments opt_update {arr State} _ _ _ _.

(** Inner training with an optimizer, as the cells of the notebook do it
    by hand: one [update] per step, each step giving the gradients and
    the keyword arguments; the first exception ends the run. *)
Fixpoint opt_run {arr State} (opt : Optimizer arr State) (s : State)
  (steps : list (pytree arr * kwargs arr)) : result State :=
  match steps with
  | [] => Ok s
  | (grads, kw) :: steps' =>
      s' ← opt_update opt s grads kw; opt_run opt s' steps'
  end.

(** ** Meta-learnable hyper parameters: [MetaSGDWD] *)

Module LOptState.
Record t (arr : Type) : Type := mk {
  params : pytree arr;
  model_state : pytree arr;
  iteration : Z;
}.
Arguments mk {arr} _ _ _.
Arguments params {arr} _.
Arguments model_state {arr} _.
Arguments iteration {arr} _.

(** the fields of the dataclass, in declaration order *)
Definition fields : list string := ["params"; "model_state"; "iteration"].

Definition asdict {arr} (s : t arr) : list (string * attr arr) :=
  [("params", AValue (params s));
   ("model_state", AValue (model_state s));
   ("iteration", AInt32 (iteration s))].
End LOptState.

Module MetaSGDWD.
Section MetaSGDWD.
Context {float arr : Type} `{!Numpy float arr}.

Record self := __init__ {
  _initial_lr : float;
  _initial_wd : float;
}.

(** [MetaSGDWD()] *)
Definition default : self :=
  __init__ (float_lit 0.001) (float_lit 0.01).

Definition init {PRNGKey : Type} (s : self) (key : PRNGKey) : pytree arr :=
  dict [("log_lr", Leaf (jnp_log (jnp_asarray (_initial_lr s))));
        ("log_wd", Leaf (jnp_log (jnp_asarray (_initial_wd s))))].

Definition _update_one (lr wd p : arr) (g : pytree arr) : result arr :=
  (Ok p - as_array g * Ok lr - Ok p * Ok wd)%jnp.

Definition _Opt_init (params model_state : pytree arr) : LOptState.t arr :=
  LOptState.mk params model_state 0.

Definition _Opt_update (theta : pytree arr) (opt_state : LOptState.t arr)
  (grads model_state : pytree arr) : result (LOptState.t arr) :=
  log_lr ← getitem theta "log_lr";
  lr ← jnp_exp <$> as_array log_lr;
  log_wd ← getitem theta "log_wd";
  wd ← jnp_exp <$> as_array log_wd;
  next_params ← jax.tree_map2 (_update_one lr wd)
                   (LOptState.params opt_state) grads;
  Ok (LOptState.mk next_params model_state
        (int32_add (LOptState.iteration opt_state) 1)).

Definition opt_fn (theta : pytree arr) : Optimizer arr (LOptState.t arr) :=
  mk_Optimizer
    (fun params model_state => Ok (_Opt_init params model_state))
    (fun opt_state grads kw =>
       _Opt_update theta opt_state grads (kw_model_state kw)).
End MetaSGDWD.
End MetaSGDWD.

(** ** Per parameter learned optimizer: [PerParamMLP] *)

Module PerParamState.
Record t (arr : Type) : Type := mk {
  params : pytree arr;
  model_state : pytree arr;
  iteration : Z;
  momentums : pytree arr;
}.
Arguments mk {arr} _ _ _ _.
Arguments params {arr} _.
Arguments model_state {arr} _.
Arguments iteration {arr} _.
Arguments momentums {arr} _.

Definition fields : list string :=
  ["params"; "model_state"; "iteration"; "momentums"].

Definition asdict {arr} (s : t arr) : list (string * attr arr) :=
  [("params", AValue (params s));
   ("model_state", AValue (model_state s));
   ("iteration", AInt32 (iteration s));
   ("momentums", AValue (momentums s))].
End PerParamState.

Module PerParamMLP.
Section PerParamMLP.
Context {float arr PRNGKey : Type} `{!Numpy float arr, !Haiku arr PRNGKey}.

Record self := __init__ {
  decay : float;
  hidden_size : nat;
}.

(** [PerParamMLP()] *)
Definition default : self := __init__ (float_lit 0.9) 64.

(** [forward], transformed by haiku: [nn] holds the weights of the MLP. *)
Definition forward (s : self) (nn : pytree arr) (grads momentum params : arr)
  : result arr :=
  features ← jnp_stack [params; momentum; grads];
  features ← jnp_transpose features
               (seq 1 (length (jnp_shape grads)) ++ [0%nat]);
  outs ← hk_MLP nn [hidden_size s; 2%nat] features;
  scale ← jnp_index_last outs 0;
  mag ← jnp_index_last outs 1;
  (Ok scale * Ok (jnp_asarray (float_lit 0.01))
   * (jnp_exp <$> (Ok mag * Ok (jnp_asarray (float_lit 0.01)))))%jnp.

(** [self.net.apply] and [self.net.init] *)
Definition net_apply (s : self) (nn : pytree arr) (grads momentum params : arr)
  : result arr :=
  forward s nn grads momentum params.

Definition net_init (s : self) (key : PRNGKey) (grads momentum params : arr)
  : result (pytree arr) :=
  hk_init key (fun nn => forward s nn grads momentum params).

Definition init (s : self) (key : PRNGKey) : result (pytree arr) :=
  let fake_mom := jnp_zeros [10; 10]%nat in
  let fake_params := fake_mom in
  let fake_grads := fake_params in
  nn ← net_init s key fake_grads fake_mom fake_params;
  Ok (dict [("nn", nn)]).

Definition _Opt_init (params model_state : pytree arr) : PerParamState.t arr :=
  let momentums := jax.tree_map jnp_zeros_like params in
  PerParamState.mk params model_state 0 momentums.

Definition _update_one_momentum (parent : self) (m : arr) (g : pytree arr)
  : result arr :=
  (Ok m * Ok (jnp_asarray (decay parent))
   + (as_array g * Ok (jnp_asarray (float_sub (float_lit 1) (decay parent)))))%jnp.

Definition _update_one (parent : self) (theta : pytree arr)
  (g : arr) (m p : pytree arr) : result arr :=
  nn ← getitem theta "nn";
  step ← (p' ← as_array p; m' ← as_array m; net_apply parent nn g m' p');
  (as_array p - Ok step)%jnp.

Definition _Opt_update (parent : self) (theta : pytree arr)
  (opt_state : PerParamState.t arr) (grads model_state : pytree arr)
  : result (PerParamState.t arr) :=
  next_moms ← jax.tree_map2 (_update_one_momentum parent)
                 (PerParamState.momentums opt_state) grads;
  next_params ← jax.tree_map3 (_update_one parent theta)
                   (PerParamState.params opt_state) grads next_moms;
  Ok (PerParamState.mk next_params model_state
        (int32_add (PerParamState.iteration opt_state) 1) next_moms).

Definition opt_fn (s : self) (theta : pytree arr)
  : Optimizer arr (PerParamState.t arr) :=
  mk_Optimizer
    (fun params model_state => Ok (_Opt_init params model_state))
    (fun opt_state grads kw =>
       _Opt_update s theta opt_state grads (kw_model_state kw)).
End PerParamMLP.
End PerParamMLP.

(** ** Meta-learned RNN controller: [HParamControllerLOPT] *)

Module HParamControllerInnerOptState.
Record t (arr : Type) : Type := mk {
  params : pytree arr;
  model_state : pytree arr;
  iteration : Z;
  rnn_hidden_state : pytree arr;
}.
Arguments mk {arr} _ _ _ _.
Arguments params {arr} _.
Arguments model_state {arr} _.
Arguments iteration {arr} _.
Arguments rnn_hidden_state {arr} _.

Definition fields : list string :=
  ["params"; "model_state"; "iteration"; "rnn_hidden_state"].

Definition asdict {arr} (s : t arr) : list (string * attr arr) :=
  [("params", AValue (params s));
   ("model_state", AValue (model_state s));
   ("iteration", AInt32 (iteration s));
   ("rnn_hidden_state", AValue (rnn_hidden_state s))].
End HParamControllerInnerOptState.

Module HParamControllerLOPT.
Section HParamControllerLOPT.
Context {float arr PRNGKey : Type} `{!Numpy float arr, !Haiku arr PRNGKey}.

(** [rnn_mod()] is [hk.LSTM(128)]: the module is given by its size. *)
Definition rnn_mod : nat := 128.

Definition initial_state_fn (hk_params : pytree arr) (key : PRNGKey)
  : result (pytree arr) :=
  let rnn_hidden_state := hk_LSTM_initial_state rnn_mod 1 in
  Ok rnn_hidden_state.

Definition forward_fn (hk_params : pytree arr) (hidden_state : pytree arr)
  (input : arr) : result (pytree arr * arr) :=
  let mod_ := rnn_mod in
  '(output, next_state) ← hk_LSTM hk_params mod_ input hidden_state;
  log_lr ← hk_Linear hk_params 1 output;
  lr ← (Ok (jnp_exp log_lr) * Ok (jnp_asarray (float_lit 0.01)))%jnp;
  Ok (next_state, lr).

Definition init (key : PRNGKey) : result (pytree arr) :=
  let n_input_features := 1%nat in
  initial_state ← initial_state_fn (dict []) key;
  let fake_input_data := jnp_zeros [1%nat; n_input_features] in
  rnn_params ← hk_init key
                 (fun hk_params =>
                    forward_fn hk_params initial_state fake_input_data);
  Ok (dict [("initial_rnn_hidden_state", initial_state);
            ("rnn_params", rnn_params)]).

Definition _Opt_init (theta : pytree arr) (params model_state : pytree arr)
  : result (HParamControllerInnerOptState.t arr) :=
  initial ← getitem theta "initial_rnn_hidden_state";
  Ok (HParamControllerInnerOptState.mk params model_state 0 initial).

Definition update_one (lr p : arr) (g : pytree arr) : result arr :=
  (Ok p - as_array g * Ok lr)%jnp.

Definition _Opt_update (theta : pytree arr)
  (opt_state : HParamControllerInnerOptState.t arr)
  (grads loss model_state : pytree arr)
  : result (HParamControllerInnerOptState.t arr) :=
  if is_None loss then Raise AssertionError else
  batched_loss ← (l ← as_array loss; jnp_reshape l [1; 1]%nat);
  rnn_params ← getitem theta "rnn_params";
  '(next_rnn_state, lr) ←
     forward_fn rnn_params
       (HParamControllerInnerOptState.rnn_hidden_state opt_state)
       batched_loss;
  next_params ← jax.tree_map2 (update_one lr)
                   (HParamControllerInnerOptState.params opt_state) grads;
  Ok (HParamControllerInnerOptState.mk next_params model_state
        (int32_add (HParamControllerInnerOptState.iteration opt_state) 1)
        next_rnn_state).

Definition opt_fn (theta : pytree arr)
  : Optimizer arr (HParamControllerInnerOptState.t arr) :=
  mk_Optimizer
    (fun params model_state => _Opt_init theta params model_state)
    (fun opt_state grads kw =>
       _Opt_update theta opt_state grads (kw_loss kw) (kw_model_state kw)).
End HParamControllerLOPT.
End HParamControllerLOPT.

(** ** The three state dataclasses of the notebook *)

Inductive state_class :=
| LOptState_class
| PerParamState_class
| HParamControllerInnerOptState_class.

Definition dataclass_fields (c : state_class) : list string :=
  match c with
  | LOptState_class => LOptState.fields
  | PerParamState_class => PerParamState.fields
  | HParamControllerInnerOptState_class => HParamControllerInnerOptState.fields
  end.

(** the fields every optimizer state of the library carries *)
Definition common_fields : list string := ["params"; "model_state"; "iteration"].

(** ** A symbolic interpretation of the libraries

    Arrays are terms that record the operations applied to named inputs,
    with their shapes; binary arithmetic follows numpy's broadcasting rule
    and raises on incompatible shapes.  It runs the cells of the notebook
    and serves as the concrete model for the examples below. *)

Module Symbolic.

Inductive pyfloat := FLit (q : Q) | FSub (a b : pyfloat).

#[local] Unset Elimination Schemes.
Inductive sym : Type :=
| SVar (name : string) (shape : list nat)
| SFloat (f : pyfloat)
| SZeros (shape : list nat)
| SApp (fn : string) (static : list nat) (args : list sym) (shape : list nat).
#[local] Set Elimination Schemes.

Definition shape (a : sym) : list nat :=
  match a with
  | SVar _ s => s
  | SFloat _ => []
  | SZeros s => s
  | SApp _ _ _ s => s
  end.

(** numpy broadcasting, on the shapes read from the last axis *)
Fixpoint broadcast_rev (s1 s2 : list nat) : option (list nat) :=
  match s1, s2 with
  | [], s => Some s
  | s, [] => Some s
  | d1 :: t1, d2 :: t2 =>
      match broadcast_rev t1 t2 with
      | Some t =>
          if decide (d1 = d2) then Some (d1 :: t)
          else if decide (d1 = 1%nat) then Some (d2 :: t)
          else if decide (d2 = 1%nat) then Some (d1 :: t)
          else None
      | None => None
      end
  end.

Definition broadcast (s1 s2 : list nat) : option (list nat) :=
  reverse <$> broadcast_rev (reverse s1) (reverse s2).

Definition binop (fn : string) (a b : sym) : result sym :=
  match broadcast (shape a) (shape b) with
  | Some s => Ok (SApp fn [] [a; b] s)
  | None => Raise TypeError
  end.

Definition unop (fn : string) (a : sym) : sym := SApp fn [] [a] (shape a).

Definition size (s : list nat) : nat := foldr Nat.mul 1%nat s.

Definition stack (l : list sym) : result sym :=
  match l with
  | [] => Ok (SApp "stack" [] [] [0%nat])
  | a :: l' =>
      if forallb (fun b => bool_decide (shape b = shape a)) l'
      then Ok (SApp "stack" [] l (length l :: shape a))
      else Raise ValueError
  end.

Definition transpose (a : sym) (perm : list nat) : result sym :=
  if bool_decide (length perm = length (shape a)) &&
     bool_decide (NoDup perm) &&
     forallb (fun i => bool_decide (i < length (shape a))%nat) perm
  then Ok (SApp "transpose" perm [a] (map (fun i => nth i (shape a) 0%nat) perm))
  else Raise ValueError.

Definition reshape (a : sym) (s : list nat) : result sym :=
  if decide (size (shape a) = size s)
  then Ok (SApp "reshape" s [a] s)
  else Raise TypeError.

Definition index_last (a : sym) (i : nat) : result sym :=
  match reverse (shape a) with
  | d :: s => if decide (i < d)%nat
              then Ok (SApp "index_last" [i] [a] (reverse s))
              else Raise ValueError
  | [] => Raise ValueError
  end.

(** a dense layer stack maps the last axis to the last output size *)
Definition dense (fn : string) (hk_params : pytree sym) (sizes : list nat)
  (x : sym) : result sym :=
  match reverse (shape x), reverse sizes with
  | _ :: s, n :: _ =>
      Ok (SApp fn sizes (jax.tree_leaves hk_params ++ [x]) (reverse s ++ [n]))
  | _, _ => Raise ValueError
  end.

Definition lstm_initial_state (hidden batch : nat) : pytree sym :=
  Node KTuple [Leaf (SZeros [batch; hidden]); Leaf (SZeros [batch; hidden])].

Definition lstm (hk_params : pytree sym) (hidden : nat) (input : sym)
  (prev_state : pytree sym) : result (sym * pytree sym) :=
  match shape input, prev_state with
  | [batch; _], Node KTuple [Leaf h; Leaf c] =>
      let args := jax.tree_leaves hk_params ++ [input; h; c] in
      let h' := SApp "lstm_hidden" [hidden] args [batch; hidden] in
      let c' := SApp "lstm_cell" [hidden] args [batch; hidden] in
      Ok (h', Node KTuple [Leaf h'; Leaf c'])
  | _, _ => Raise ValueError
  end.

(** the parameters haiku creates are fresh named arrays *)
Definition transform_init (X : Type) (key : nat)
  (f : pytree sym -> result X) : result (pytree sym) :=
  let created := dict [("w", Leaf (SVar "hk_init" [key]))] in
  match f created with
  | Ok _ => Ok created
  | Raise e => Raise e
  end.

#[global] Instance sym_numpy : Numpy pyfloat sym := {|
  float_lit := FLit;
  float_sub := FSub;
  jnp_asarray := SFloat;
  jnp_add := binop "add";
  jnp_sub := binop "sub";
  jnp_mul := binop "mul";
  jnp_exp := unop "exp";
  jnp_log := unop "log";
  jnp_shape := shape;
  jnp_zeros := SZeros;
  jnp_zeros_like := fun a => SZeros (shape a);
  jnp_stack := stack;
  jnp_transpose := transpose;
  jnp_reshape := reshape;
  jnp_index_last := index_last;
  all_zeros := fun a => match a with SZeros _ => True | _ => False end;
  jnp_zeros_like_shape := fun a => eq_refl;
  jnp_zeros_like_zeros := fun a => I;
|}.

#[global] Instance sym_haiku : Haiku sym nat := {|
  hk_MLP := dense "mlp";
  hk_LSTM := lstm;
  hk_LSTM_initial_state := lstm_initial_state;
  hk_Linear := fun hk_params n => dense "linear" hk_params [n];
  hk_init := transform_init;
|}.

Definition ones (s : list nat) : sym := SApp "ones" [] [] s.
Definition neg (a : sym) : sym := unop "negative" a.
Definition pyf (q : Q) : sym := SFloat (FLit q).

(** *** The cells of the notebook *)

(** cell 7 *)
Definition cell7_theta : pytree sym := MetaSGDWD.init MetaSGDWD.default 0%nat.
Definition cell7_fake_params : pytree sym :=
  dict [("a", Leaf (pyf 1.0)); ("b", Leaf (pyf 2.0))].
Definition cell7_fake_grads : pytree sym :=
  dict [("a", Leaf (pyf (-1.0))); ("b", Leaf (pyf 1.0))].
Definition cell7_opt_state : LOptState.t sym :=
  MetaSGDWD._Opt_init cell7_fake_params py_None.

(** cell 14 *)
Definition cell14_theta : pytree sym := dict [("nn", Leaf (SVar "nn" []))].
Definition cell14_fake_params : pytree sym :=
  dict [("a", Leaf (ones [2; 3]%nat)); ("b", Leaf (ones [1%nat]))].
Definition cell14_fake_grads : pytree sym :=
  dict [("a", Leaf (neg (ones [2; 3]%nat))); ("b", Leaf (neg (ones [1%nat])))].
Definition cell14_opt_state : PerParamState.t sym :=
  PerParamMLP._Opt_init cell14_fake_params py_None.

(** cell 24 *)
Definition cell24_initial_state : pytree sym :=
  lstm_initial_state HParamControllerLOPT.rnn_mod 1.
Definition cell24_theta : pytree sym :=
  dict [("initial_rnn_hidden_state", cell24_initial_state);
        ("rnn_params", Leaf (SVar "rnn_params" []))].
Definition cell24_params : pytree sym :=
  dict [("a", Leaf (ones [3; 2]%nat)); ("b", Leaf (ones [2; 1]%nat))].
Definition cell24_fake_grads : pytree sym :=
  dict [("a", Leaf (neg (ones [3; 2]%nat))); ("b", Leaf (neg (ones [2; 1]%nat)))].
Definition cell24_opt_state : HParamControllerInnerOptState.t sym :=
  HParamControllerInnerOptState.mk cell24_params py_None 0 cell24_initial_state.

(** *** Further inputs *)

(** gradients for cell 7 whose dict has the key [c] where the params
    have [b] *)
Definition mismatched_grads : pytree sym :=
  dict [("a", Leaf (pyf (-1.0))); ("c", Leaf (pyf 1.0))].

(** the state of cell 7 with its counter at the largest int32 *)
Definition last_int32_state : LOptState.t sym :=
  LOptState.mk cell7_fake_params py_None INT32_MAX.

(** the leaf [b] of cell 14 alone *)
Definition leaf_b_params : pytree sym := dict [("b", Leaf (ones [1%nat]))].
Definition leaf_b_grads : pytree sym :=
  dict [("b", Leaf (neg (ones [1%nat])))].
Definition leaf_b_opt_state : PerParamState.t sym :=
  PerParamMLP._Opt_init leaf_b_params py_None.

(** two steps of inner training on cell 24, with the losses 1.0 and 0.5 *)
Definition cell24_two_steps : list (pytree sym * kwargs sym) :=
  [(cell24_fake_grads, mk_kwargs (Leaf (pyf 1.0)) py_None);
   (cell24_fake_grads, mk_kwargs (Leaf (pyf 0.5)) py_None)].

(** two steps on cell 7 and on cell 14 *)
Definition cell7_two_steps : list (pytree sym * kwargs sym) :=
  [(cell7_fake_grads, no_kwargs); (cell7_fake_grads, no_kwargs)].
Definition cell14_two_steps : list (pytree sym * kwargs sym) :=
  [(cell14_fake_grads, no_kwargs); (cell14_fake_grads, no_kwargs)].

(** a model without parameters *)
Definition empty_params : pytree sym := dict [].

(** params whose first entry is [None], with gradients that hold an
    array there: [(None, ones([2]))] and [(-ones([3]), -ones([2]))] *)
Definition none_first_params : pytree sym :=
  Node KTuple [py_None; Leaf (ones [2%nat])].
Definition none_first_grads : pytree sym :=
  Node KTuple [Leaf (neg (ones [3%nat])); Leaf (neg (ones [2%nat]))].
Definition none_first_state : LOptState.t sym :=
  MetaSGDWD._Opt_init none_first_params py_None.
Definition none_first_controller_state : HParamControllerInnerOptState.t sym :=
  HParamControllerInnerOptState.mk none_first_params py_None 0
    cell24_initial_state.
Definition none_first_momentum_state : PerParamState.t sym :=
  PerParamMLP._Opt_init none_first_params py_None.

End Symbolic.

(** * Properties *)

(** ** Results *)

Lemma bind_Ok {A B} (m : result A) (f : A -> result B) (b : B) :
  m ≫= f = Ok b <-> exists a, m = Ok a /\ f a = Ok b.
Proof.
  destruct m as [a|e]; simpl; split.
  - intros H. exists a. split; [reflexivity | exact H].
  - intros (a' & [= <-] & H). exact H.
  - discriminate.
  - intros (a' & [=] & _).
Qed.

Lemma fmap_Ok {A B} (f : A -> B) (m : result A) (b : B) :
  f <$> m = Ok b <-> exists a, m = Ok a /\ b = f a.
Proof.
  destruct m as [a|e]; simpl; split.
  - intros [= <-]. eauto.
  - intros (a' & [= <-] & ->). reflexivity.
  - discriminate.
  - intros (a' & [=] & _).
Qed.

Lemma is_Ok_Ok {A} (a : A) : is_Ok (Ok a).
Proof. exists a. reflexivity. Qed.

Lemma not_is_Ok_Raise {A} (e : exn) : ~ is_Ok (@Raise A e).
Proof. intros [a [=]]. Qed.

Lemma lift2_Ok {A} (op : A -> A -> result A) (x y : result A) (c : A) :
  lift2 op x y = Ok c <-> exists a b, x = Ok a /\ y = Ok b /\ op a b = Ok c.
Proof.
  unfold lift2. rewrite bind_Ok. split.
  - intros (a & Hx & H). apply bind_Ok in H as (b & Hy & H). eauto.
  - intros (a & b & Hx & Hy & H). exists a. split; [done|].
    apply bind_Ok. eauto.
Qed.

(** ** Lists of results *)

Lemma mapM2_Ok {A B C} (f : A -> B -> result C) xs ys zs :
  mapM2 f xs ys = Ok zs <-> Forall3 (fun x y z => f x y = Ok z) xs ys zs.
Proof.
  split.
  - revert ys zs. induction xs as [|x xs IH]; intros [|y ys] zs; simpl; try discriminate.
    + intros [= <-]. constructor.
    + intros H. apply bind_Ok in H as (z & Hz & H).
      apply bind_Ok in H as (zs' & Hzs & [= <-]).
      constructor; [done | by apply IH].
  - induction 1 as [|x y z xs ys zs Hz _ IH]; simpl; [done|].
    rewrite Hz; simpl. rewrite IH; simpl. done.
Qed.

Lemma mapM_Ok {A B} (f : A -> result B) xs ys :
  mapM f xs = Ok ys <-> Forall2 (fun x y => f x = Ok y) xs ys.
Proof.
  split.
  - revert ys. induction xs as [|x xs IH]; intros ys; simpl.
    + intros [= <-]. constructor.
    + intros H. apply bind_Ok in H as (z & Hz & H).
      apply bind_Ok in H as (zs' & Hzs & [= <-]).
      constructor; [done | by apply IH].
  - induction 1 as [|x y xs ys Hy _ IH]; simpl; [done|].
    rewrite Hy; simpl. rewrite IH; simpl. done.
Qed.

(** ** Pytrees *)

Lemma pytree_ind {A} (P : pytree A -> Prop) :
  (forall a, P (Leaf a)) ->
  (forall k ts, Forall P ts -> P (Node k ts)) ->
  forall t, P t.
Proof.
  intros Hleaf Hnode. fix IH 1. intros [a|k ts].
  - apply Hleaf.
  - apply Hnode. induction ts as [|t ts IHts]; constructor; [apply IH | apply IHts].
Qed.

Lemma tree_leaves_map {A B} (f : A -> B) (t : pytree A) :
  jax.tree_leaves (jax.tree_map f t) = map f (jax.tree_leaves t).
Proof.
  induction t as [a|k ts IH] using pytree_ind; simpl; [done|].
  induction IH as [|t ts Ht _ IHts]; simpl; [done|].
  rewrite map_app, Ht, IHts. done.
Qed.

Lemma tree_map_compose {A B C} (f : A -> B) (g : B -> C) (t : pytree A) :
  jax.tree_map g (jax.tree_map f t) = jax.tree_map (fun a => g (f a)) t.
Proof.
  induction t as [a|k ts IH] using pytree_ind; simpl; [done|].
  f_equal. induction IH as [|t ts Ht _ IHts]; simpl; [done|].
  by rewrite Ht, IHts.
Qed.

Lemma tree_structure_map {A B} (f : A -> B) (t : pytree A) :
  jax.tree_structure (jax.tree_map f t) = jax.tree_structure t.
Proof. unfold jax.tree_structure. apply tree_map_compose. Qed.

Lemma tree_structure_leaves_length {A B} (t : pytree A) (r : pytree B) :
  jax.tree_structure t = jax.tree_structure r ->
  length (jax.tree_leaves t) = length (jax.tree_leaves r).
Proof.
  intros H.
  rewrite <- (length_map (fun _ => tt) (jax.tree_leaves t)).
  rewrite <- (length_map (fun _ => tt) (jax.tree_leaves r)).
  rewrite <- !tree_leaves_map. unfold jax.tree_structure in H. by rewrite H.
Qed.

(** *** The structure check *)

Lemma tree_zip_node {A B} k (ts : list (pytree A)) (r : pytree B) :
  (k = KNone /\ ts = []) \/
  jax.tree_zip (Node k ts) r
  = match r with
    | Leaf _ => Raise ValueError
    | Node k' rs =>
        if decide (k = k') then Node k <$> mapM2 jax.tree_zip ts rs
        else Raise ValueError
    end.
Proof. destruct k, ts; simpl; auto. Qed.

(** The zipped tree is the first tree with something attached to every
    leaf. *)
Lemma tree_zip_fst {A B} (t : pytree A) (r : pytree B) z :
  jax.tree_zip t r = Ok z -> jax.tree_map fst z = t.
Proof.
  revert r z. induction t as [a|k ts IH] using pytree_ind; intros r z.
  - simpl. by intros [= <-].
  - destruct (tree_zip_node k ts r) as [[-> ->]|Heq]; [by intros [= <-]|].
    rewrite Heq. destruct r as [b|k' rs]; [discriminate|].
    destruct (decide (k = k')) as [<-|]; [|discriminate].
    intros (zs & Hzs%mapM2_Ok & ->)%fmap_Ok. simpl. f_equal.
    clear Heq. induction Hzs as [|t r z ts' rs' zs' Hz _ IHzs]; simpl; [done|].
    apply Forall_cons in IH as [IHt IHts].
    rewrite (IHt _ _ Hz), (IHzs IHts). done.
Qed.

Lemma tree_zip_structure {A B} (t : pytree A) (r : pytree B) z :
  jax.tree_zip t r = Ok z -> jax.tree_structure z = jax.tree_structure t.
Proof. intros <-%tree_zip_fst. by rewrite tree_structure_map. Qed.

(** On trees of one structure the check passes and pairs the leaves in
    order. *)
Lemma tree_zip_same {A B} (t : pytree A) (r : pytree B) :
  jax.tree_structure r = jax.tree_structure t ->
  exists z, jax.tree_zip t r = Ok z /\
            jax.tree_leaves z
            = zip (jax.tree_leaves t) (Leaf <$> jax.tree_leaves r).
Proof.
  intros Hs.
  enough (exists z, jax.tree_zip t r = Ok z /\
                    (jax.tree_leaves z).*2 = Leaf <$> jax.tree_leaves r)
    as (z & Hz & Hsnd).
  { exists z. split; [done|]. rewrite <- Hsnd.
    rewrite <- (tree_zip_fst _ _ _ Hz), tree_leaves_map.
    symmetry. apply zip_fst_snd. }
  revert r Hs. induction t as [a|k ts IH] using pytree_ind; intros [b|k' rs];
    unfold jax.tree_structure; simpl; try discriminate.
  - intros _. eexists. split; [reflexivity|]. done.
  - intros [= -> Hrs].
    destruct (tree_zip_node k ts (Node k rs)) as [[-> ->]|Heq].
    { destruct rs; [|discriminate]. eexists. split; [reflexivity|]. done. }
    change (match k with KNone => _ | _ => _ end)
      with (jax.tree_zip (Node k ts) (Node k rs)).
    rewrite Heq, decide_True by done.
    enough (exists zs, mapM2 jax.tree_zip ts rs = Ok zs /\
                       (flat_map jax.tree_leaves zs).*2
                       = Leaf <$> flat_map jax.tree_leaves rs)
      as (zs & -> & Hzs) by (eexists; split; [reflexivity | exact Hzs]).
    clear Heq. revert rs Hrs.
    induction IH as [|t ts Ht _ IHts]; intros [|r rs]; simpl; try discriminate.
    + intros _. eexists. split; [reflexivity|]. done.
    + intros [= Hr Hrs]. destruct (Ht r Hr) as (z & -> & Hz). simpl.
      destruct (IHts rs Hrs) as (zs & -> & Hzs). simpl.
      eexists. split; [reflexivity|]. simpl.
      rewrite !fmap_app. by rewrite Hz, Hzs.
Qed.

(** Whatever the other tree, the check pairs a leaf with what the other
    tree holds at the position of the leaf. *)
Lemma tree_zip_paths {A B} (t : pytree A) (r : pytree B) z :
  jax.tree_zip t r = Ok z ->
  forall path a, jax.leaf_at path t = Some a ->
    exists o, jax.subtree path r = Some o /\ jax.leaf_at path z = Some (a, o).
Proof.
  revert r z. induction t as [a|k ts IH] using pytree_ind; intros r z.
  - simpl. intros [= <-] [|i path] a'; [|done].
    unfold jax.leaf_at. simpl. intros [= <-]. eauto.
  - destruct (tree_zip_node k ts r) as [[-> ->]|Heq].
    { intros _ [|i path] a; done. }
    rewrite Heq. destruct r as [b|k' rs]; [discriminate|].
    destruct (decide (k = k')) as [<-|]; [|discriminate].
    intros (zs & Hzs%mapM2_Ok & ->)%fmap_Ok [|i path] a; [done|].
    unfold jax.leaf_at. simpl.
    destruct (ts !! i) as [t|] eqn:Hti; [|done]. intros Ha.
    clear Heq. revert i Hti.
    induction Hzs as [|t0 r0 z0 ts' rs' zs' Hz _ IHzs]; intros i Hti; [done|].
    apply Forall_cons in IH as [IHt IHts].
    destruct i as [|i]; simpl in *.
    + injection Hti as ->. apply (IHt _ _ Hz path a Ha).
    + by apply IHzs.
Qed.

(** *** Calling a function on the leaves *)

Lemma tree_mapM_Ok {A B} (f : A -> result B) (t : pytree A) u :
  jax.tree_mapM f t = Ok u ->
  jax.tree_structure u = jax.tree_structure t /\
  Forall2 (fun a b => f a = Ok b) (jax.tree_leaves t) (jax.tree_leaves u).
Proof.
  revert u. induction t as [a|k ts IH] using pytree_ind; intros u; simpl.
  - intros (b & Hb & ->)%fmap_Ok. simpl. split; [done|]. by constructor.
  - intros (us & Hus%mapM_Ok & ->)%fmap_Ok. unfold jax.tree_structure. simpl.
    enough (map (jax.tree_map (fun _ => tt)) us = map (jax.tree_map (fun _ => tt)) ts /\
            Forall2 (fun a b => f a = Ok b)
              (flat_map jax.tree_leaves ts) (flat_map jax.tree_leaves us))
      as [-> ?] by done.
    induction Hus as [|t u ts' us' Hu _ IHus]; simpl; [by split|].
    apply Forall_cons in IH as [IHt IHts].
    destruct (IHt _ Hu) as [Hs Hl]. destruct (IHus IHts) as [Hss Hls].
    unfold jax.tree_structure in Hs. rewrite Hs, Hss. split; [done|].
    by apply Forall2_app.
Qed.

Lemma tree_mapM_complete {A B} (f : A -> result B) (t : pytree A) :
  Forall (fun a => is_Ok (f a)) (jax.tree_leaves t) -> is_Ok (jax.tree_mapM f t).
Proof.
  induction t as [a|k ts IH] using pytree_ind; simpl.
  - intros [b ->]%Forall_inv. apply is_Ok_Ok.
  - intros H.
    enough (is_Ok (mapM (jax.tree_mapM f) ts)) as [us ->] by apply is_Ok_Ok.
    induction IH as [|t ts Ht _ IHts]; simpl in *; [apply is_Ok_Ok|].
    apply Forall_app in H as [H1 H2].
    destruct (Ht H1) as [u ->]. simpl. destruct (IHts H2) as [us ->]. simpl.
    apply is_Ok_Ok.
Qed.

Lemma tree_mapM_paths {A B} (f : A -> result B) (t : pytree A) u :
  jax.tree_mapM f t = Ok u ->
  forall path a, jax.leaf_at path t = Some a ->
    exists b, f a = Ok b /\ jax.leaf_at path u = Some b.
Proof.
  revert u. induction t as [a|k ts IH] using pytree_ind; intros u; simpl.
  - intros (b & Hb & ->)%fmap_Ok [|i path] a'; [|done].
    unfold jax.leaf_at. simpl. intros [= <-]. eauto.
  - intros (us & Hus%mapM_Ok & ->)%fmap_Ok [|i path] a; [done|].
    unfold jax.leaf_at. simpl.
    destruct (ts !! i) as [t|] eqn:Hti; [|done]. intros Ha.
    revert i Hti. induction Hus as [|t0 u0 ts' us' Hu _ IHus]; intros i Hti; [done|].
    apply Forall_cons in IH as [IHt IHts].
    destruct i as [|i]; simpl in *.
    + injection Hti as ->. apply (IHt _ Hu path a Ha).
    + by apply IHus.
Qed.

Lemma Forall2_zip_Forall3 {A B C} (R : A -> B -> C -> Prop) l k m :
  length l = length k ->
  Forall2 (fun ab c => R ab.1 ab.2 c) (zip l k) m -> Forall3 R l k m.
Proof.
  revert k m. induction l as [|a l IH]; intros [|b k] m; simpl; try discriminate.
  - intros _ ->%Forall2_nil_inv_l. constructor.
  - intros [= Hlen] (c & m' & Hc & Hm & ->)%Forall2_cons_inv_l.
    constructor; [done | by apply IH].
Qed.

Lemma not_is_Ok {A} (m : result A) : ~ is_Ok m <-> exists e, m = Raise e.
Proof.
  destruct m as [a|e]; split.
  - intros []. apply is_Ok_Ok.
  - intros [e [=]].
  - eauto.
  - intros _. apply not_is_Ok_Raise.
Qed.

(** *** [jax.tree_map] over several trees *)

Lemma Forall3_fmap_m {A B B' C} (g : B -> B') (R : A -> B' -> C -> Prop) l k m :
  Forall3 R l (g <$> k) m -> Forall3 (fun a b c => R a (g b) c) l k m.
Proof.
  revert l m. induction k as [|b k IH]; intros l m H; inversion H; subst;
    constructor; [done | by apply IH].
Qed.

(** The result has the structure of the first tree, whatever the others. *)
Lemma tree_map2_structure {A B C} (f : A -> pytree B -> result C) t r u :
  jax.tree_map2 f t r = Ok u -> jax.tree_structure u = jax.tree_structure t.
Proof.
  unfold jax.tree_map2. intros (z & Hz & Hu)%bind_Ok.
  apply tree_zip_structure in Hz. apply tree_mapM_Ok in Hu as [Hu _]. congruence.
Qed.

(** At every leaf of the first tree, the result holds what [f] returns on
    the leaf and on what the other tree holds at the same position. *)
Lemma tree_map2_paths {A B C} (f : A -> pytree B -> result C) t r u :
  jax.tree_map2 f t r = Ok u ->
  forall path a, jax.leaf_at path t = Some a ->
    exists o c, jax.subtree path r = Some o /\ f a o = Ok c /\
                jax.leaf_at path u = Some c.
Proof.
  unfold jax.tree_map2. intros (z & Hz & Hu)%bind_Ok path a Ha.
  destruct (tree_zip_paths _ _ _ Hz path a Ha) as (o & Ho & Hzo).
  destruct (tree_mapM_paths _ _ _ Hu path _ Hzo) as (c & Hc & Huc).
  eauto.
Qed.

(** On trees of one structure, leaf [i] of the result is [f] on the
    leaves [i] of the two trees. *)
Lemma tree_map2_same {A B C} (f : A -> pytree B -> result C) t r u :
  jax.tree_structure r = jax.tree_structure t ->
  jax.tree_map2 f t r = Ok u ->
  Forall3 (fun a b c => f a (Leaf b) = Ok c)
    (jax.tree_leaves t) (jax.tree_leaves r) (jax.tree_leaves u).
Proof.
  unfold jax.tree_map2. intros Hs (z & Hz & Hu)%bind_Ok.
  destruct (tree_zip_same t r Hs) as (z' & Hz' & Hl).
  rewrite Hz in Hz'. injection Hz' as <-.
  apply tree_mapM_Ok in Hu as [_ Hu]. rewrite Hl in Hu.
  apply (Forall3_fmap_m Leaf (fun a b c => f a b = Ok c)), Forall2_zip_Forall3.
  - rewrite length_fmap. symmetry. by apply tree_structure_leaves_length.
  - eapply Forall2_impl; [exact Hu|]. by intros [a b] c.
Qed.

Lemma Forall3_lookup_l_Ok {A B C} (R : A -> B -> C -> Prop) l k m i a :
  Forall3 R l k m -> l !! i = Some a ->
  exists b c, k !! i = Some b /\ m !! i = Some c /\ R a b c.
Proof.
  intros H. revert i. induction H as [|x y z l k m Hz _ IH]; intros i.
  - by rewrite lookup_nil.
  - destruct i as [|i]; simpl.
    + intros [= <-]. eauto.
    + apply IH.
Qed.

Lemma tree_map2_returns {A B C} (f : A -> pytree B -> result C) t r :
  jax.tree_structure r = jax.tree_structure t ->
  Forall2 (fun a b => is_Ok (f a (Leaf b))) (jax.tree_leaves t) (jax.tree_leaves r) ->
  is_Ok (jax.tree_map2 f t r).
Proof.
  intros Hs Hl. unfold jax.tree_map2.
  destruct (tree_zip_same t r Hs) as (z & -> & Hz). simpl.
  apply tree_mapM_complete. rewrite Hz.
  clear -Hl. induction Hl; simpl; constructor; done.
Qed.

Lemma tree_map3_structure {A B C D}
  (f : A -> pytree B -> pytree C -> result D) t r q u :
  jax.tree_map3 f t r q = Ok u -> jax.tree_structure u = jax.tree_structure t.
Proof.
  unfold jax.tree_map3. intros (z & Hz & (z' & Hz' & Hu)%bind_Ok)%bind_Ok.
  apply tree_zip_structure in Hz, Hz'. apply tree_mapM_Ok in Hu as [Hu _].
  congruence.
Qed.

Lemma tree_map3_paths {A B C D}
  (f : A -> pytree B -> pytree C -> result D) t r q u :
  jax.tree_map3 f t r q = Ok u ->
  forall path a, jax.leaf_at path t = Some a ->
    exists o1 o2 d, jax.subtree path r = Some o1 /\ jax.subtree path q = Some o2 /\
                    f a o1 o2 = Ok d /\ jax.leaf_at path u = Some d.
Proof.
  unfold jax.tree_map3.
  intros (z & Hz & (z' & Hz' & Hu)%bind_Ok)%bind_Ok path a Ha.
  destruct (tree_zip_paths _ _ _ Hz path a Ha) as (o1 & Ho1 & Hz1).
  destruct (tree_zip_paths _ _ _ Hz' path _ Hz1) as (o2 & Ho2 & Hz2).
  destruct (tree_mapM_paths _ _ _ Hu path _ Hz2) as (d & Hd & Hud).
  eauto 10.
Qed.

Lemma tree_map3_same {A B C D}
  (f : A -> pytree B -> pytree C -> result D) t r q u :
  jax.tree_structure r = jax.tree_structure t ->
  jax.tree_structure q = jax.tree_structure t ->
  jax.tree_map3 f t r q = Ok u ->
  forall i a, jax.tree_leaves t !! i = Some a ->
    exists b c d, jax.tree_leaves r !! i = Some b /\
                  jax.tree_leaves q !! i = Some c /\
                  jax.tree_leaves u !! i = Some d /\
                  f a (Leaf b) (Leaf c) = Ok d.
Proof.
  unfold jax.tree_map3.
  intros Hr Hq (z & Hz & (z' & Hz' & Hu)%bind_Ok)%bind_Ok i a Ha.
  destruct (tree_zip_same t r Hr) as (z0 & Hz0 & Hzl).
  rewrite Hz in Hz0. injection Hz0 as <-.
  pose proof (tree_zip_structure _ _ _ Hz) as Hzs.
  destruct (tree_zip_same z q) as (z0 & Hz0 & Hzl'); [congruence|].
  rewrite Hz' in Hz0. injection Hz0 as <-.
  apply tree_mapM_Ok in Hu as [_ Hul].
  destruct (lookup_lt_is_Some_2 (jax.tree_leaves r) i) as [b Hb].
  { rewrite (tree_structure_leaves_length _ _ Hr). by eapply lookup_lt_Some. }
  destruct (lookup_lt_is_Some_2 (jax.tree_leaves q) i) as [c Hc].
  { rewrite (tree_structure_leaves_length _ _ Hq). by eapply lookup_lt_Some. }
  assert (jax.tree_leaves z !! i = Some (a, Leaf b)) as Hab.
  { rewrite Hzl. apply lookup_zip_with_Some. exists a, (Leaf b).
    rewrite list_lookup_fmap, Hb. done. }
  assert (jax.tree_leaves z' !! i = Some (a, Leaf b, Leaf c)) as Habc.
  { rewrite Hzl'. apply lookup_zip_with_Some. exists (a, Leaf b), (Leaf c).
    rewrite list_lookup_fmap, Hc. done. }
  destruct (Forall2_lookup_l _ _ _ _ _ Hul Habc) as (d & Hd & Hf).
  eauto 10.
Qed.

Lemma tree_map3_returns {A B C D}
  (f : A -> pytree B -> pytree C -> result D) t r q :
  jax.tree_structure r = jax.tree_structure t ->
  jax.tree_structure q = jax.tree_structure t ->
  Forall3 (fun a b c => is_Ok (f a (Leaf b) (Leaf c)))
    (jax.tree_leaves t) (jax.tree_leaves r) (jax.tree_leaves q) ->
  is_Ok (jax.tree_map3 f t r q).
Proof.
  intros Hr Hq Hl. unfold jax.tree_map3.
  destruct (tree_zip_same t r Hr) as (z & Hz & Hzl). rewrite Hz. simpl.
  pose proof (tree_zip_structure _ _ _ Hz) as Hzs.
  destruct (tree_zip_same z q) as (z' & Hz' & Hzl'); [congruence|].
  rewrite Hz'. simpl.
  apply tree_mapM_complete. rewrite Hzl', Hzl.
  clear -Hl. induction Hl; simpl; constructor; done.
Qed.

Lemma as_array_Ok {A} (v : pytree A) (a : A) : as_array v = Ok a <-> v = Leaf a.
Proof. destruct v; simpl; split; congruence. Qed.

Lemma is_None_true {A} (v : pytree A) : is_None v = true <-> v = py_None.
Proof.
  unfold py_None. destruct v as [a|[| | |keys] [|t ts]]; simpl; split; congruence.
Qed.

(** ** int32 arithmetic *)

Lemma int32_add_no_overflow (z : Z) :
  (INT32_MIN <= z < INT32_MAX)%Z -> int32_add z 1 = (z + 1)%Z.
Proof.
  unfold INT32_MIN, INT32_MAX, int32_add, int32_wrap. intros H.
  rewrite Z.mod_small by lia. lia.
Qed.

Lemma int32_add_overflow : int32_add INT32_MAX 1 = INT32_MIN.
Proof. reflexivity. Qed.

Lemma int32_wrap_range (z : Z) : (INT32_MIN <= int32_wrap z <= INT32_MAX)%Z.
Proof.
  unfold INT32_MIN, INT32_MAX, int32_wrap.
  pose proof (Z.mod_pos_bound (z + 2 ^ 31) (2 ^ 32)). lia.
Qed.

(** ** Pytrees are determined by their structure and their leaves *)

Lemma tree_ext {A} (t u : pytree A) :
  jax.tree_structure t = jax.tree_structure u ->
  jax.tree_leaves t = jax.tree_leaves u -> t = u.
Proof.
  revert u. induction t as [a|k ts IH] using pytree_ind; intros [b|k' us];
    unfold jax.tree_structure; simpl; try discriminate.
  - intros _ [= ->]. done.
  - intros [= <- Hs] Hl. f_equal.
    revert us Hs Hl. induction IH as [|t ts Ht _ IHts]; intros [|u us]; simpl;
      try discriminate; [done|].
    intros [= Hs Hss] Hl.
    apply app_inj_1 in Hl as [Hl1 Hl2];
      [|by apply tree_structure_leaves_length].
    f_equal; [by apply Ht | by apply IHts].
Qed.

(** A position that holds a leaf. *)
Lemma subtree_leaf_at {A} path (t : pytree A) a :
  jax.subtree path t = Some (Leaf a) -> jax.leaf_at path t = Some a.
Proof. unfold jax.leaf_at. by intros ->. Qed.

(** ** The update functions, unfolded into their steps *)

Section Updates.
Context {float arr PRNGKey : Type} `{!Numpy float arr, !Haiku arr PRNGKey}.

Lemma MetaSGDWD_update_one_Ok (lr wd p : arr) (g : pytree arr) (v : arr) :
  MetaSGDWD._update_one lr wd p g = Ok v <->
  exists gl x y z, g = Leaf gl /\ jnp_mul gl lr = Ok x /\ jnp_sub p x = Ok y /\
                   jnp_mul p wd = Ok z /\ jnp_sub y z = Ok v.
Proof.
  unfold MetaSGDWD._update_one. rewrite lift2_Ok. split.
  - intros (y & z & (p' & x & [= <-] & Hx & Hy)%lift2_Ok & Hz & Hv).
    apply lift2_Ok in Hx as (gl & lr' & ->%as_array_Ok & [= <-] & Hx).
    apply lift2_Ok in Hz as (p' & wd' & [= <-] & [= <-] & Hz).
    eauto 10.
  - intros (gl & x & y & z & -> & Hx & Hy & Hz & Hv). exists y, z.
    split; [|split; [|done]]; apply lift2_Ok; eauto 10.
Qed.
Lemma MetaSGDWD_update_Ok theta s g ms s' :
  MetaSGDWD._Opt_update theta s g ms = Ok s' <->
  exists a b next,
    getitem theta "log_lr" = Ok (Leaf a) /\
    getitem theta "log_wd" = Ok (Leaf b) /\
    jax.tree_map2 (MetaSGDWD._update_one (jnp_exp a) (jnp_exp b))
      (LOptState.params s) g = Ok next /\
    s' = LOptState.mk next ms (int32_add (LOptState.iteration s) 1).
Proof.
  unfold MetaSGDWD._Opt_update. split.
  - intros (v1 & H1 & H)%bind_Ok.
    apply bind_Ok in H as (lr & (a & ->%as_array_Ok & ->)%fmap_Ok & H).
    apply bind_Ok in H as (v2 & H2 & H).
    apply bind_Ok in H as (wd & (b & ->%as_array_Ok & ->)%fmap_Ok & H).
    apply bind_Ok in H as (next & Hnext & [= <-]).
    eauto 10.
  - intros (a & b & next & -> & -> & Hnext & ->). simpl.
    rewrite Hnext. done.
Qed.

Lemma PerParamMLP_update_one_momentum_Ok (parent : PerParamMLP.self)
  (m : arr) (g : pytree arr) (m' : arr) :
  PerParamMLP._update_one_momentum parent m g = Ok m' <->
  exists gl x y,
    g = Leaf gl /\
    jnp_mul m (jnp_asarray (PerParamMLP.decay parent)) = Ok x /\
    jnp_mul gl (jnp_asarray (float_sub (float_lit 1) (PerParamMLP.decay parent))) = Ok y /\
    jnp_add x y = Ok m'.
Proof.
  unfold PerParamMLP._update_one_momentum. rewrite lift2_Ok. split.
  - intros (x & y & (? & ? & [= <-] & [= <-] & Hx)%lift2_Ok
                  & (gl & ? & ->%as_array_Ok & [= <-] & Hy)%lift2_Ok & H).
    eauto 10.
  - intros (gl & x & y & -> & Hx & Hy & H). exists x, y.
    split; [|split; [|done]]; apply lift2_Ok; eauto.
Qed.

Lemma PerParamMLP_update_one_Ok (parent : PerParamMLP.self) theta
  (g : arr) (m p : pytree arr) (v : arr) :
  PerParamMLP._update_one parent theta g m p = Ok v <->
  exists nn ml pl step,
    getitem theta "nn" = Ok nn /\ m = Leaf ml /\ p = Leaf pl /\
    PerParamMLP.forward parent nn g ml pl = Ok step /\
    jnp_sub pl step = Ok v.
Proof.
  unfold PerParamMLP._update_one, PerParamMLP.net_apply. rewrite bind_Ok. split.
  - intros (nn & Hnn & (step & Hstep & H)%bind_Ok).
    apply bind_Ok in Hstep as (pl & ->%as_array_Ok & Hstep).
    apply bind_Ok in Hstep as (ml & ->%as_array_Ok & Hstep).
    apply lift2_Ok in H as (? & ? & [= <-] & [= <-] & H). eauto 10.
  - intros (nn & ml & pl & step & Hnn & -> & -> & Hstep & H). exists nn.
    split; [done|]. simpl. rewrite Hstep. simpl. exact H.
Qed.
Lemma PerParamMLP_update_Ok parent theta s g ms s' :
  PerParamMLP._Opt_update parent theta s g ms = Ok s' <->
  exists next_moms next_params,
    jax.tree_map2 (PerParamMLP._update_one_momentum parent)
      (PerParamState.momentums s) g = Ok next_moms /\
    jax.tree_map3 (PerParamMLP._update_one parent theta)
      (PerParamState.params s) g next_moms = Ok next_params /\
    s' = PerParamState.mk next_params ms
           (int32_add (PerParamState.iteration s) 1) next_moms.
Proof.
  unfold PerParamMLP._Opt_update. rewrite bind_Ok. split.
  - intros (nm & Hnm & (np & Hnp & [= <-])%bind_Ok). eauto.
  - intros (nm & np & Hnm & Hnp & ->). exists nm. split; [done|].
    rewrite Hnp. done.
Qed.

Lemma HParam_forward_fn_Ok hk_params hidden (input : arr) next_state lr :
  HParamControllerLOPT.forward_fn hk_params hidden input = Ok (next_state, lr) <->
  exists output log_lr,
    hk_LSTM hk_params 128 input hidden = Ok (output, next_state) /\
    hk_Linear hk_params 1 output = Ok log_lr /\
    jnp_mul (jnp_exp log_lr) (jnp_asarray (float_lit 0.01)) = Ok lr.
Proof.
  unfold HParamControllerLOPT.forward_fn, HParamControllerLOPT.rnn_mod.
  rewrite bind_Ok. split.
  - intros ([output next] & Hl & (log_lr & Hlin & H)%bind_Ok).
    apply bind_Ok in H as (lr' & Hlr & [= <- <-]).
    apply lift2_Ok in Hlr as (? & ? & [= <-] & [= <-] & Hlr). eauto.
  - intros (output & log_lr & Hl & Hlin & Hlr). exists (output, next_state).
    split; [done|]. rewrite Hlin. simpl. unfold lift2. simpl. rewrite Hlr. done.
Qed.

Lemma HParam_update_one_Ok (lr p : arr) (g : pytree arr) (v : arr) :
  HParamControllerLOPT.update_one lr p g = Ok v <->
  exists gl x, g = Leaf gl /\ jnp_mul gl lr = Ok x /\ jnp_sub p x = Ok v.
Proof.
  unfold HParamControllerLOPT.update_one. rewrite lift2_Ok. split.
  - intros (? & x & [= <-] & (gl & ? & ->%as_array_Ok & [= <-] & Hx)%lift2_Ok & H).
    eauto.
  - intros (gl & x & -> & Hx & H). exists p, x. split; [done|]. split; [|done].
    apply lift2_Ok. eauto.
Qed.

Lemma HParam_update_no_loss theta s g ms :
  HParamControllerLOPT._Opt_update theta s g py_None ms = Raise AssertionError.
Proof. reflexivity. Qed.

Lemma HParam_update_Ok theta s g loss ms s' :
  HParamControllerLOPT._Opt_update theta s g loss ms = Ok s' <->
  exists l batched_loss rnn_params next_rnn_state lr next_params,
    loss = Leaf l /\
    jnp_reshape l [1; 1]%nat = Ok batched_loss /\
    getitem theta "rnn_params" = Ok rnn_params /\
    HParamControllerLOPT.forward_fn rnn_params
      (HParamControllerInnerOptState.rnn_hidden_state s) batched_loss
      = Ok (next_rnn_state, lr) /\
    jax.tree_map2 (HParamControllerLOPT.update_one lr)
      (HParamControllerInnerOptState.params s) g = Ok next_params /\
    s' = HParamControllerInnerOptState.mk next_params ms
           (int32_add (HParamControllerInnerOptState.iteration s) 1)
           next_rnn_state.
Proof.
  unfold HParamControllerLOPT._Opt_update. split.
  - destruct (is_None loss) eqn:Hnone; [discriminate|].
    intros (bl & (l & ->%as_array_Ok & Hbl)%bind_Ok & H)%bind_Ok.
    apply bind_Ok in H as (rp & Hrp & H).
    apply bind_Ok in H as ([next lr] & Hf & H).
    apply bind_Ok in H as (np & Hnp & [= <-]).
    eauto 15.
  - intros (l & bl & rp & next & lr & np & -> & Hbl & Hrp & Hf & Hnp & ->).
    simpl. rewrite Hbl. simpl. rewrite Hrp. simpl. rewrite Hf. simpl.
    rewrite Hnp. done.
Qed.

Lemma HParam_init_Ok (theta params ms : pytree arr) s :
  HParamControllerLOPT._Opt_init theta params ms = Ok s <->
  exists h, getitem theta "initial_rnn_hidden_state" = Ok h /\
            s = HParamControllerInnerOptState.mk params ms 0 h.
Proof.
  unfold HParamControllerLOPT._Opt_init. rewrite bind_Ok. split.
  - intros (h & Hh & [= <-]). eauto.
  - intros (h & Hh & ->). eauto.
Qed.

End Updates.

(** ** When the updates return *)

Section Returns.
Context {float arr PRNGKey : Type} `{!Numpy float arr, !Haiku arr PRNGKey}.

Lemma Forall3_Ok_functional {A B C} (f : A -> B -> result C) l k m m' :
  Forall3 (fun a b c => f a b = Ok c) l k m ->
  Forall3 (fun a b c => f a b = Ok c) l k m' -> m = m'.
Proof.
  intros H. revert m'. induction H as [|a b c l k m Hc _ IH]; intros m' H'.
  - by inversion H'.
  - inversion H' as [|? ? c' ? ? m'' Hc' Hm']; subst.
    f_equal; [congruence | by apply IH].
Qed.

(** [MetaSGDWD]'s update returns when theta holds both entries as arrays,
    the gradients have the structure of the params and the arithmetic is
    defined on every pair of leaves. *)
Lemma MetaSGDWD_update_returns theta (s : LOptState.t arr) g ms log_lr log_wd :
  getitem theta "log_lr" = Ok (Leaf log_lr) ->
  getitem theta "log_wd" = Ok (Leaf log_wd) ->
  jax.tree_structure g = jax.tree_structure (LOptState.params s) ->
  Forall2 (fun p gl =>
             is_Ok (MetaSGDWD._update_one (jnp_exp log_lr) (jnp_exp log_wd)
                      p (Leaf gl)))
    (jax.tree_leaves (LOptState.params s)) (jax.tree_leaves g) ->
  is_Ok (MetaSGDWD._Opt_update theta s g ms).
Proof.
  intros Ha Hb Hs Hl.
  destruct (tree_map2_returns _ _ _ Hs Hl) as [next Hnext].
  eexists. apply MetaSGDWD_update_Ok. eauto 10.
Qed.

Lemma MetaSGDWD_update_structure theta (s : LOptState.t arr) g ms s' :
  MetaSGDWD._Opt_update theta s g ms = Ok s' ->
  jax.tree_structure (LOptState.params s')
  = jax.tree_structure (LOptState.params s).
Proof.
  intros (a & b & next & _ & _ & Hnext & ->)%MetaSGDWD_update_Ok.
  by apply tree_map2_structure in Hnext.
Qed.

Lemma PerParamMLP_update_returns parent theta (s : PerParamState.t arr) g ms
  (next_moms : list arr) :
  jax.tree_structure g = jax.tree_structure (PerParamState.momentums s) ->
  jax.tree_structure g = jax.tree_structure (PerParamState.params s) ->
  Forall3 (fun m gl m' =>
             PerParamMLP._update_one_momentum parent m (Leaf gl) = Ok m')
    (jax.tree_leaves (PerParamState.momentums s)) (jax.tree_leaves g) next_moms ->
  Forall3 (fun p gl m' =>
             is_Ok (PerParamMLP._update_one parent theta p (Leaf gl) (Leaf m')))
    (jax.tree_leaves (PerParamState.params s)) (jax.tree_leaves g) next_moms ->
  is_Ok (PerParamMLP._Opt_update parent theta s g ms).
Proof.
  intros Hg Hg' Hm Hp.
  destruct (tree_map2_returns (PerParamMLP._update_one_momentum parent)
              (PerParamState.momentums s) g Hg) as [nm Hnm].
  { clear -Hm. induction Hm; constructor; [by eexists|done]. }
  pose proof (tree_map2_structure _ _ _ _ Hnm) as Hnms.
  pose proof (tree_map2_same _ _ _ _ Hg Hnm) as Hl.
  rewrite (Forall3_Ok_functional
             (fun m gl => PerParamMLP._update_one_momentum parent m (Leaf gl))
             _ _ _ _ Hm Hl) in Hp.
  destruct (tree_map3_returns (PerParamMLP._update_one parent theta)
              (PerParamState.params s) g nm) as [np Hnp];
    [done | congruence | done |].
  eexists. apply PerParamMLP_update_Ok. eauto.
Qed.

Lemma PerParamMLP_update_structure parent theta (s : PerParamState.t arr) g ms s' :
  PerParamMLP._Opt_update parent theta s g ms = Ok s' ->
  jax.tree_structure (PerParamState.params s')
    = jax.tree_structure (PerParamState.params s) /\
  jax.tree_structure (PerParamState.momentums s')
    = jax.tree_structure (PerParamState.momentums s).
Proof.
  intros (nm & np & Hnm & Hnp & ->)%PerParamMLP_update_Ok. simpl.
  apply tree_map2_structure in Hnm. apply tree_map3_structure in Hnp. done.
Qed.

Lemma HParam_update_returns theta (s : HParamControllerInnerOptState.t arr)
  g loss ms l batched_loss rnn_params next_rnn_state lr :
  loss = Leaf l ->
  jnp_reshape l [1; 1]%nat = Ok batched_loss ->
  getitem theta "rnn_params" = Ok rnn_params ->
  HParamControllerLOPT.forward_fn rnn_params
    (HParamControllerInnerOptState.rnn_hidden_state s) batched_loss
    = Ok (next_rnn_state, lr) ->
  jax.tree_structure g
    = jax.tree_structure (HParamControllerInnerOptState.params s) ->
  Forall2 (fun p gl => is_Ok (HParamControllerLOPT.update_one lr p (Leaf gl)))
    (jax.tree_leaves (HParamControllerInnerOptState.params s))
    (jax.tree_leaves g) ->
  is_Ok (HParamControllerLOPT._Opt_update theta s g loss ms).
Proof.
  intros Hl Hbl Hrp Hf Hs Hok.
  destruct (tree_map2_returns _ _ _ Hs Hok) as [np Hnp].
  eexists. apply HParam_update_Ok. eauto 15.
Qed.

Lemma HParam_update_structure theta (s : HParamControllerInnerOptState.t arr)
  g loss ms s' :
  HParamControllerLOPT._Opt_update theta s g loss ms = Ok s' ->
  jax.tree_structure (HParamControllerInnerOptState.params s')
  = jax.tree_structure (HParamControllerInnerOptState.params s).
Proof.
  intros (l & bl & rp & next & lr & np & _ & _ & _ & _ & Hnp & ->)%HParam_update_Ok.
  by apply tree_map2_structure in Hnp.
Qed.

End Returns.

(** * The claims *)

Section Claims.
Context {float arr PRNGKey : Type} `{!Numpy float arr, !Haiku arr PRNGKey}.

(** ** [MetaSGDWD] *)

(** C8: [MetaSGDWD.init] is independent of its key: for any two keys it
    returns the same theta, the dict of [log_lr = log(initial_lr)] and
    [log_wd = log(initial_wd)], built from the constructor arguments
    only. *)
Theorem MetaSGDWD_init_ignores_key (initial_lr initial_wd : float)
  {K1 K2 : Type} (k1 : K1) (k2 : K2) :
  let lopt := MetaSGDWD.__init__ initial_lr initial_wd in
  MetaSGDWD.init lopt k1 = MetaSGDWD.init lopt k2 /\
  MetaSGDWD.init lopt k1 =
    dict [("log_lr", Leaf (jnp_log (jnp_asarray initial_lr)));
          ("log_wd", Leaf (jnp_log (jnp_asarray initial_wd)))] /\
  getitem (MetaSGDWD.init lopt k1) "log_lr"
    = Ok (Leaf (jnp_log (jnp_asarray initial_lr))) /\
  getitem (MetaSGDWD.init lopt k1) "log_wd"
    = Ok (Leaf (jnp_log (jnp_asarray initial_wd))).
Proof. done. Qed.

(** ** [PerParamMLP] *)

(** C9: for every params tree, the inner [init] of [PerParamMLP] stores
    the params unchanged, and its momentums have the tree structure of
    the params, each leaf an all-zero array of the shape of the
    parameter leaf at the same position. *)
Theorem PerParamMLP_init_zero_momentums (params model_state : pytree arr) :
  let s := PerParamMLP._Opt_init params model_state in
  PerParamState.params s = params /\
  jax.tree_structure (PerParamState.momentums s) = jax.tree_structure params /\
  Forall2 (fun p m => jnp_shape m = jnp_shape p /\ all_zeros m)
    (jax.tree_leaves params) (jax.tree_leaves (PerParamState.momentums s)).
Proof.
  simpl. split; [done|]. split; [apply tree_structure_map|].
  rewrite tree_leaves_map. apply Forall2_fmap_r, Forall_Forall2_diag, Forall_forall.
  intros p _. split; [apply jnp_zeros_like_shape | apply jnp_zeros_like_zeros].
Qed.

(** ** [HParamControllerLOPT] *)

Lemma HParam_init_theta (key : PRNGKey) (theta : pytree arr) :
  HParamControllerLOPT.init key = Ok theta ->
  getitem theta "initial_rnn_hidden_state"
    = Ok (hk_LSTM_initial_state HParamControllerLOPT.rnn_mod 1).
Proof.
  unfold HParamControllerLOPT.init, HParamControllerLOPT.initial_state_fn. simpl.
  intros (rnn_params & _ & [= <-])%bind_Ok. done.
Qed.

(** C10: for every params tree, the inner [init] of
    [HParamControllerLOPT] returns a state whose [rnn_hidden_state] is
    exactly [theta["initial_rnn_hidden_state"]], with the params stored
    unchanged; for the theta built by [HParamControllerLOPT.init] that
    entry is the initial state of the LSTM. *)
Theorem HParam_init_copies_initial_rnn_state
  (theta params model_state h : pytree arr) :
  getitem theta "initial_rnn_hidden_state" = Ok h ->
  exists s,
    HParamControllerLOPT._Opt_init theta params model_state = Ok s /\
    HParamControllerInnerOptState.rnn_hidden_state s = h /\
    HParamControllerInnerOptState.params s = params /\
    (forall key, HParamControllerLOPT.init key = Ok theta ->
       HParamControllerInnerOptState.rnn_hidden_state s
         = hk_LSTM_initial_state HParamControllerLOPT.rnn_mod 1).
Proof.
  intros Hh. eexists. split; [apply HParam_init_Ok; eauto|]. simpl.
  split; [done|]. split; [done|].
  intros key Hkey%HParam_init_theta. congruence.
Qed.

(** C4: [MetaSGDWD]'s inner update is the one line of arithmetic
    [p - g * exp(theta["log_lr"]) - p * exp(theta["log_wd"])].  When the
    gradients have the tree structure of the params, every leaf of the
    new params is that arithmetic on the corresponding leaves of the
    params and of the gradients, and the update returns when the
    arithmetic is defined on the leaves; the new params depend on nothing
    but the two entries of theta, the old params and the gradients.
    Whatever the gradients, a call that returns has paired every leaf of
    the params with the array that the gradients hold at the same
    position. *)
Theorem MetaSGDWD_update_arithmetic theta (s : LOptState.t arr) g ms :
  (forall s',
     jax.tree_structure g = jax.tree_structure (LOptState.params s) ->
     MetaSGDWD._Opt_update theta s g ms = Ok s' ->
     exists log_lr log_wd,
       getitem theta "log_lr" = Ok (Leaf log_lr) /\
       getitem theta "log_wd" = Ok (Leaf log_wd) /\
       jax.tree_structure (LOptState.params s')
         = jax.tree_structure (LOptState.params s) /\
       forall i p, jax.tree_leaves (LOptState.params s) !! i = Some p ->
         exists gl x y z v,
           jax.tree_leaves g !! i = Some gl /\
           jax.tree_leaves (LOptState.params s') !! i = Some v /\
           jnp_mul gl (jnp_exp log_lr) = Ok x /\ jnp_sub p x = Ok y /\
           jnp_mul p (jnp_exp log_wd) = Ok z /\ jnp_sub y z = Ok v) /\
  (forall log_lr log_wd,
     getitem theta "log_lr" = Ok (Leaf log_lr) ->
     getitem theta "log_wd" = Ok (Leaf log_wd) ->
     jax.tree_structure g = jax.tree_structure (LOptState.params s) ->
     Forall2 (fun p gl => exists x y z v,
                jnp_mul gl (jnp_exp log_lr) = Ok x /\ jnp_sub p x = Ok y /\
                jnp_mul p (jnp_exp log_wd) = Ok z /\ jnp_sub y z = Ok v)
       (jax.tree_leaves (LOptState.params s)) (jax.tree_leaves g) ->
     is_Ok (MetaSGDWD._Opt_update theta s g ms)) /\
  (forall theta2 (s2 : LOptState.t arr) ms2,
     getitem theta2 "log_lr" = getitem theta "log_lr" ->
     getitem theta2 "log_wd" = getitem theta "log_wd" ->
     LOptState.params s2 = LOptState.params s ->
     LOptState.params <$> MetaSGDWD._Opt_update theta2 s2 g ms2
       = LOptState.params <$> MetaSGDWD._Opt_update theta s g ms) /\
  (forall s',
     MetaSGDWD._Opt_update theta s g ms = Ok s' ->
     exists log_lr log_wd,
       getitem theta "log_lr" = Ok (Leaf log_lr) /\
       getitem theta "log_wd" = Ok (Leaf log_wd) /\
       jax.tree_structure (LOptState.params s')
         = jax.tree_structure (LOptState.params s) /\
       forall path p, jax.leaf_at path (LOptState.params s) = Some p ->
         exists gl x y z v,
           jax.leaf_at path g = Some gl /\
           jax.leaf_at path (LOptState.params s') = Some v /\
           jnp_mul gl (jnp_exp log_lr) = Ok x /\ jnp_sub p x = Ok y /\
           jnp_mul p (jnp_exp log_wd) = Ok z /\ jnp_sub y z = Ok v).
Proof.
  split; [|split; [|split]].
  - intros s' Hs (a & b & next & Ha & Hb & Hnext & ->)%MetaSGDWD_update_Ok.
    exists a, b. simpl.
    pose proof (tree_map2_structure _ _ _ _ Hnext) as Hs'.
    repeat (split; [done|]).
    intros i p Hp.
    destruct (Forall3_lookup_l_Ok _ _ _ _ i p (tree_map2_same _ _ _ _ Hs Hnext) Hp)
      as (gl & v & Hgl & Hv & Hf).
    apply MetaSGDWD_update_one_Ok in Hf as (gl' & x & y & z & [= <-] & Hx & Hy & Hz & Hf).
    exists gl, x, y, z, v. done.
  - intros a b Ha Hb Hs Hl. apply (MetaSGDWD_update_returns theta s g ms a b Ha Hb Hs).
    eapply Forall2_impl; [exact Hl|]. intros p gl (x & y & z & v & H).
    exists v. apply MetaSGDWD_update_one_Ok. exists gl, x, y, z. done.
  - intros theta2 s2 ms2 H1 H2 H3. unfold MetaSGDWD._Opt_update.
    rewrite H1, H2, H3.
    destruct (getitem theta "log_lr") as [v1|]; simpl; [|done].
    destruct (as_array v1); simpl; [|done].
    destruct (getitem theta "log_wd") as [v2|]; simpl; [|done].
    destruct (as_array v2); simpl; [|done].
    by destruct (jax.tree_map2 _ _ _).
  - intros s' (a & b & next & Ha & Hb & Hnext & ->)%MetaSGDWD_update_Ok.
    exists a, b. simpl.
    pose proof (tree_map2_structure _ _ _ _ Hnext) as Hs'.
    repeat (split; [done|]).
    intros path p Hp.
    destruct (tree_map2_paths _ _ _ _ Hnext path p Hp) as (o & v & Ho & Hf & Hv).
    apply MetaSGDWD_update_one_Ok in Hf as (gl & x & y & z & -> & Hx & Hy & Hz & Hf).
    apply subtree_leaf_at in Ho.
    exists gl, x, y, z, v. done.
Qed.

(** C5: [model_state] is passed through: [init] stores its [model_state]
    argument, [update] stores its own [model_state] argument ([None] when
    the caller gives none), and the [model_state] held by the input state
    is not read: it changes neither the result nor whether [update]
    raises. *)
Theorem model_state_passes_through :
  (forall params ms : pytree arr,
     LOptState.model_state (MetaSGDWD._Opt_init params ms) = ms) /\
  (forall params ms : pytree arr,
     PerParamState.model_state (PerParamMLP._Opt_init params ms) = ms) /\
  (forall (theta params ms : pytree arr) s,
     HParamControllerLOPT._Opt_init theta params ms = Ok s ->
     HParamControllerInnerOptState.model_state s = ms) /\
  (forall theta (s : LOptState.t arr) g ms s',
     MetaSGDWD._Opt_update theta s g ms = Ok s' ->
     LOptState.model_state s' = ms) /\
  (forall parent theta (s : PerParamState.t arr) g ms s',
     PerParamMLP._Opt_update parent theta s g ms = Ok s' ->
     PerParamState.model_state s' = ms) /\
  (forall theta (s : HParamControllerInnerOptState.t arr) g loss ms s',
     HParamControllerLOPT._Opt_update theta s g loss ms = Ok s' ->
     HParamControllerInnerOptState.model_state s' = ms) /\
  (forall theta (s : LOptState.t arr) g s',
     opt_update (MetaSGDWD.opt_fn theta) s g no_kwargs = Ok s' ->
     LOptState.model_state s' = py_None) /\
  (forall parent theta (s : PerParamState.t arr) g s',
     opt_update (PerParamMLP.opt_fn parent theta) s g no_kwargs = Ok s' ->
     PerParamState.model_state s' = py_None) /\
  (forall theta (s : HParamControllerInnerOptState.t arr) g loss s',
     opt_update (HParamControllerLOPT.opt_fn theta) s g (mk_kwargs loss py_None)
       = Ok s' ->
     HParamControllerInnerOptState.model_state s' = py_None) /\
  (forall theta params it g ms (old1 old2 : pytree arr),
     MetaSGDWD._Opt_update theta (LOptState.mk params old1 it) g ms
     = MetaSGDWD._Opt_update theta (LOptState.mk params old2 it) g ms) /\
  (forall parent theta params it moms g ms (old1 old2 : pytree arr),
     PerParamMLP._Opt_update parent theta
       (PerParamState.mk params old1 it moms) g ms
     = PerParamMLP._Opt_update parent theta
         (PerParamState.mk params old2 it moms) g ms) /\
  (forall theta params it h g loss ms (old1 old2 : pytree arr),
     HParamControllerLOPT._Opt_update theta
       (HParamControllerInnerOptState.mk params old1 it h) g loss ms
     = HParamControllerLOPT._Opt_update theta
         (HParamControllerInnerOptState.mk params old2 it h) g loss ms).
Proof.
  repeat split; try done.
  - by intros theta params ms s (h & _ & ->)%HParam_init_Ok.
  - by intros theta s g ms s' (a & b & next & _ & _ & _ & ->)%MetaSGDWD_update_Ok.
  - by intros parent theta s g ms s' (nm & np & _ & _ & ->)%PerParamMLP_update_Ok.
  - by intros theta s g loss ms s'
      (l & bl & rp & next & lr & np & _ & _ & _ & _ & _ & ->)%HParam_update_Ok.
  - by intros theta s g s' (a & b & next & _ & _ & _ & ->)%MetaSGDWD_update_Ok.
  - by intros parent theta s g s' (nm & np & _ & _ & ->)%PerParamMLP_update_Ok.
  - by intros theta s g loss s'
      (l & bl & rp & next & lr & np & _ & _ & _ & _ & _ & ->)%HParam_update_Ok.
Qed.

(** What [PerParamMLP]'s update computes at each leaf.  The momentum is
    the running average of the gradient.  For the params,
    [jax.tree_map] hands [_update_one] what the trees
    [(params, grads, next_moms)] hold at one position, in this order,
    while [_update_one] names its arguments [(g, m, p)]: the network is
    applied to [(grads := p, momentum := g, params := m')] and the step
    is subtracted from the new momentum [m']. *)
Lemma PerParamMLP_update_leaves parent theta (s : PerParamState.t arr) g ms s' :
  PerParamMLP._Opt_update parent theta s g ms = Ok s' ->
  jax.tree_structure (PerParamState.momentums s')
    = jax.tree_structure (PerParamState.momentums s) /\
  jax.tree_structure (PerParamState.params s')
    = jax.tree_structure (PerParamState.params s) /\
  (forall path m, jax.leaf_at path (PerParamState.momentums s) = Some m ->
     exists gl x y m',
       jax.leaf_at path g = Some gl /\
       jax.leaf_at path (PerParamState.momentums s') = Some m' /\
       jnp_mul m (jnp_asarray (PerParamMLP.decay parent)) = Ok x /\
       jnp_mul gl (jnp_asarray (float_sub (float_lit 1) (PerParamMLP.decay parent)))
         = Ok y /\
       jnp_add x y = Ok m') /\
  (forall path p, jax.leaf_at path (PerParamState.params s) = Some p ->
     exists gl m' nn step v,
       jax.leaf_at path g = Some gl /\
       jax.leaf_at path (PerParamState.momentums s') = Some m' /\
       jax.leaf_at path (PerParamState.params s') = Some v /\
       getitem theta "nn" = Ok nn /\
       PerParamMLP.forward parent nn p gl m' = Ok step /\
       jnp_sub m' step = Ok v).
Proof.
  intros Hup.
  destruct (PerParamMLP_update_structure _ _ _ _ _ _ Hup) as [Hnps Hnms].
  apply PerParamMLP_update_Ok in Hup as (nm & np & Hnm & Hnp & ->).
  simpl in *. repeat (split; [done|]). split.
  - intros path m Hm.
    destruct (tree_map2_paths _ _ _ _ Hnm path m Hm) as (o & m' & Ho & Hf & Hm').
    apply PerParamMLP_update_one_momentum_Ok in Hf as (gl & x & y & -> & Hx & Hy & Hf).
    apply subtree_leaf_at in Ho.
    exists gl, x, y, m'. done.
  - intros path p Hp.
    destruct (tree_map3_paths _ _ _ _ _ Hnp path p Hp)
      as (o1 & o2 & v & Ho1 & Ho2 & Hf & Hv).
    apply PerParamMLP_update_one_Ok in Hf
      as (nn & gl & m' & step & Hnn & -> & -> & Hstep & Hf).
    apply subtree_leaf_at in Ho1, Ho2.
    exists gl, m', nn, step, v. done.
Qed.

(** C7: [HParamControllerLOPT]'s update is one step of the recurrent
    controller: one forward pass of the LSTM on the loss reshaped to
    [[1, 1]] and the stored [rnn_hidden_state]; the learning rate
    [lr = exp(linear(output)) * 0.01]; every new parameter leaf is
    [p - g * lr] with this one [lr], where [g] is the array that the
    gradients hold at the position of [p]; the next state of the LSTM is
    stored in [rnn_hidden_state].  When the gradients have the tree
    structure of the params, the leaves correspond by index, and the
    update returns whenever these steps are defined. *)
Theorem HParam_update_controller_step theta
  (s : HParamControllerInnerOptState.t arr) g loss ms :
  (forall s', HParamControllerLOPT._Opt_update theta s g loss ms = Ok s' ->
     exists l batched_loss rnn_params output next_state log_lr lr,
       loss = Leaf l /\
       jnp_reshape l [1; 1]%nat = Ok batched_loss /\
       getitem theta "rnn_params" = Ok rnn_params /\
       hk_LSTM rnn_params 128 batched_loss
         (HParamControllerInnerOptState.rnn_hidden_state s)
         = Ok (output, next_state) /\
       hk_Linear rnn_params 1 output = Ok log_lr /\
       jnp_mul (jnp_exp log_lr) (jnp_asarray (float_lit 0.01)) = Ok lr /\
       HParamControllerInnerOptState.rnn_hidden_state s' = next_state /\
       jax.tree_structure (HParamControllerInnerOptState.params s')
         = jax.tree_structure (HParamControllerInnerOptState.params s) /\
       (forall path p,
          jax.leaf_at path (HParamControllerInnerOptState.params s) = Some p ->
          exists gl x v,
            jax.leaf_at path g = Some gl /\
            jax.leaf_at path (HParamControllerInnerOptState.params s') = Some v /\
            jnp_mul gl lr = Ok x /\ jnp_sub p x = Ok v) /\
       (jax.tree_structure g
          = jax.tree_structure (HParamControllerInnerOptState.params s) ->
        forall i p,
          jax.tree_leaves (HParamControllerInnerOptState.params s) !! i = Some p ->
          exists gl x v,
            jax.tree_leaves g !! i = Some gl /\
            jax.tree_leaves (HParamControllerInnerOptState.params s') !! i = Some v /\
            jnp_mul gl lr = Ok x /\ jnp_sub p x = Ok v)) /\
  (forall l batched_loss rnn_params output next_state log_lr lr,
     loss = Leaf l ->
     jnp_reshape l [1; 1]%nat = Ok batched_loss ->
     getitem theta "rnn_params" = Ok rnn_params ->
     hk_LSTM rnn_params 128 batched_loss
       (HParamControllerInnerOptState.rnn_hidden_state s)
       = Ok (output, next_state) ->
     hk_Linear rnn_params 1 output = Ok log_lr ->
     jnp_mul (jnp_exp log_lr) (jnp_asarray (float_lit 0.01)) = Ok lr ->
     jax.tree_structure g
       = jax.tree_structure (HParamControllerInnerOptState.params s) ->
     Forall2 (fun p gl => exists x v, jnp_mul gl lr = Ok x /\ jnp_sub p x = Ok v)
       (jax.tree_leaves (HParamControllerInnerOptState.params s))
       (jax.tree_leaves g) ->
     is_Ok (HParamControllerLOPT._Opt_update theta s g loss ms)).
Proof.
  split.
  - intros s' (l & bl & rp & next & lr & np & Hl & Hbl & Hrp & Hf & Hnp & ->)%HParam_update_Ok.
    apply HParam_forward_fn_Ok in Hf as (output & log_lr & Hlstm & Hlin & Hlr).
    exists l, bl, rp, output, next, log_lr, lr. simpl.
    pose proof (tree_map2_structure _ _ _ _ Hnp) as Hs'.
    repeat (split; [done|]). split.
    + intros path p Hp.
      destruct (tree_map2_paths _ _ _ _ Hnp path p Hp) as (o & v & Ho & Hu & Hv).
      apply HParam_update_one_Ok in Hu as (gl & x & -> & Hx & Hu).
      apply subtree_leaf_at in Ho.
      exists gl, x, v. done.
    + intros Hs i p Hp.
      destruct (Forall3_lookup_l_Ok _ _ _ _ i p (tree_map2_same _ _ _ _ Hs Hnp) Hp)
        as (gl & v & Hgl & Hv & Hu).
      apply HParam_update_one_Ok in Hu as (gl' & x & [= <-] & Hx & Hu).
      exists gl, x, v. done.
  - intros l bl rp output next log_lr lr Hl Hbl Hrp Hlstm Hlin Hlr Hs Hok.
    apply (HParam_update_returns theta s g loss ms l bl rp next lr); try done.
    + apply HParam_forward_fn_Ok; eauto.
    + eapply Forall2_impl; [exact Hok|]. intros p gl (x & v & Hx & Hv).
      exists v. apply HParam_update_one_Ok. eauto.
Qed.

(** C1 (amended): the inner [init] of each example returns a state whose
    iteration is 0 ([HParamControllerLOPT]'s returns when theta holds
    [initial_rnn_hidden_state]), and every call to [update] that returns
    a state returns one whose iteration is [s.iteration + 1] in int32
    arithmetic: the successor below [2^31 - 1], and [-2^31] at
    [2^31 - 1].  Not every call returns a state:
    [HParamControllerLOPT]'s update raises [AssertionError] when no loss
    is given. *)
Theorem iteration_counts_updates :
  (forall params ms : pytree arr,
     LOptState.iteration (MetaSGDWD._Opt_init params ms) = 0%Z) /\
  (forall params ms : pytree arr,
     PerParamState.iteration (PerParamMLP._Opt_init params ms) = 0%Z) /\
  (forall theta params ms h : pytree arr,
     getitem theta "initial_rnn_hidden_state" = Ok h ->
     exists s, HParamControllerLOPT._Opt_init theta params ms = Ok s /\
               HParamControllerInnerOptState.iteration s = 0%Z) /\
  (forall theta (s : LOptState.t arr) g ms s',
     MetaSGDWD._Opt_update theta s g ms = Ok s' ->
     LOptState.iteration s' = int32_add (LOptState.iteration s) 1) /\
  (forall parent theta (s : PerParamState.t arr) g ms s',
     PerParamMLP._Opt_update parent theta s g ms = Ok s' ->
     PerParamState.iteration s' = int32_add (PerParamState.iteration s) 1) /\
  (forall theta (s : HParamControllerInnerOptState.t arr) g loss ms s',
     HParamControllerLOPT._Opt_update theta s g loss ms = Ok s' ->
     HParamControllerInnerOptState.iteration s'
       = int32_add (HParamControllerInnerOptState.iteration s) 1) /\
  (forall z, (INT32_MIN <= z < INT32_MAX)%Z -> int32_add z 1 = (z + 1)%Z) /\
  int32_add INT32_MAX 1 = INT32_MIN /\
  (forall theta (s : HParamControllerInnerOptState.t arr) g ms,
     HParamControllerLOPT._Opt_update theta s g py_None ms
     = Raise AssertionError).
Proof.
  repeat split; try done.
  - intros theta params ms h Hh. eexists. split; [apply HParam_init_Ok; eauto|done].
  - by intros theta s g ms s' (a & b & next & _ & _ & _ & ->)%MetaSGDWD_update_Ok.
  - by intros parent theta s g ms s' (nm & np & _ & _ & ->)%PerParamMLP_update_Ok.
  - by intros theta s g loss ms s'
      (l & bl & rp & next & lr & np & _ & _ & _ & _ & _ & ->)%HParam_update_Ok.
  - apply int32_add_no_overflow.
Qed.

(** C2 (amended): called with only the state and the gradients, the
    update of [MetaSGDWD] and of [PerParamMLP] returns the next state
    whenever theta holds the entries read, the gradients (and the
    momentums) have the tree structure of the params and the array
    operations are defined on the leaves; the update of
    [HParamControllerLOPT] then raises [AssertionError]: it needs the
    additional argument [loss], and with it returns whenever its steps
    are defined. *)
Theorem update_with_state_and_grads_only :
  (forall theta (s : HParamControllerInnerOptState.t arr) g,
     opt_update (HParamControllerLOPT.opt_fn theta) s g no_kwargs
     = Raise AssertionError) /\
  (forall theta (s : LOptState.t arr) g log_lr log_wd,
     getitem theta "log_lr" = Ok (Leaf log_lr) ->
     getitem theta "log_wd" = Ok (Leaf log_wd) ->
     jax.tree_structure g = jax.tree_structure (LOptState.params s) ->
     Forall2 (fun p gl =>
                is_Ok (MetaSGDWD._update_one (jnp_exp log_lr) (jnp_exp log_wd)
                         p (Leaf gl)))
       (jax.tree_leaves (LOptState.params s)) (jax.tree_leaves g) ->
     is_Ok (opt_update (MetaSGDWD.opt_fn theta) s g no_kwargs)) /\
  (forall parent theta (s : PerParamState.t arr) g (next_moms : list arr),
     jax.tree_structure g = jax.tree_structure (PerParamState.momentums s) ->
     jax.tree_structure g = jax.tree_structure (PerParamState.params s) ->
     Forall3 (fun m gl m' =>
                PerParamMLP._update_one_momentum parent m (Leaf gl) = Ok m')
       (jax.tree_leaves (PerParamState.momentums s)) (jax.tree_leaves g)
       next_moms ->
     Forall3 (fun p gl m' =>
                is_Ok (PerParamMLP._update_one parent theta p (Leaf gl) (Leaf m')))
       (jax.tree_leaves (PerParamState.params s)) (jax.tree_leaves g)
       next_moms ->
     is_Ok (opt_update (PerParamMLP.opt_fn parent theta) s g no_kwargs)) /\
  (forall theta (s : HParamControllerInnerOptState.t arr) g loss
          l batched_loss rnn_params next_rnn_state lr,
     loss = Leaf l ->
     jnp_reshape l [1; 1]%nat = Ok batched_loss ->
     getitem theta "rnn_params" = Ok rnn_params ->
     HParamControllerLOPT.forward_fn rnn_params
       (HParamControllerInnerOptState.rnn_hidden_state s) batched_loss
       = Ok (next_rnn_state, lr) ->
     jax.tree_structure g
       = jax.tree_structure (HParamControllerInnerOptState.params s) ->
     Forall2 (fun p gl => is_Ok (HParamControllerLOPT.update_one lr p (Leaf gl)))
       (jax.tree_leaves (HParamControllerInnerOptState.params s))
       (jax.tree_leaves g) ->
     is_Ok (opt_update (HParamControllerLOPT.opt_fn theta) s g
              (mk_kwargs loss py_None))).
Proof.
  split; [|split; [|split]].
  - intros theta s g. exact (HParam_update_no_loss theta s g py_None).
  - intros theta s g a b. exact (MetaSGDWD_update_returns theta s g py_None a b).
  - intros parent theta s g nm.
    exact (PerParamMLP_update_returns parent theta s g py_None nm).
  - intros theta s g loss l bl rp next lr.
    exact (HParam_update_returns theta s g loss py_None l bl rp next lr).
Qed.

End Claims.

(** C3, as stated, fails: [LOptState], the state of [MetaSGDWD], has the
    three common fields and no extra one. *)
Lemma LOptState_has_no_extra_field :
  ~ (forall c : state_class,
       exists extra, dataclass_fields c = common_fields ++ [extra]).
Proof. intros H. destruct (H LOptState_class) as [extra [=]]. Qed.

(** C3 (amended): [PerParamState] and [HParamControllerInnerOptState] have
    exactly the fields params, model_state, iteration and one extra field
    ([momentums], [rnn_hidden_state]); [LOptState] has exactly the three
    common fields.  These are the attributes every instance carries. *)
Theorem state_record_fields :
  dataclass_fields LOptState_class = common_fields /\
  dataclass_fields PerParamState_class = common_fields ++ ["momentums"] /\
  dataclass_fields HParamControllerInnerOptState_class
    = common_fields ++ ["rnn_hidden_state"] /\
  (forall c, (exists extra, dataclass_fields c = common_fields ++ [extra])
             <-> c <> LOptState_class) /\
  (forall arr (s : LOptState.t arr),
     (LOptState.asdict s).*1 = dataclass_fields LOptState_class) /\
  (forall arr (s : PerParamState.t arr),
     (PerParamState.asdict s).*1 = dataclass_fields PerParamState_class) /\
  (forall arr (s : HParamControllerInnerOptState.t arr),
     (HParamControllerInnerOptState.asdict s).*1
     = dataclass_fields HParamControllerInnerOptState_class).
Proof.
  repeat split; try done.
  - intros [extra Hc] ->. discriminate.
  - destruct c; [done | eexists; reflexivity | eexists; reflexivity].
Qed.

(** ** The claims on the cells of the notebook *)

Import Symbolic.

(** C1, as stated, fails: [update] does not return a state on every call
    (on cell 7 it raises on gradients whose dict has another key, and
    [HParamControllerLOPT]'s raises when no loss is given), and at the
    largest int32 the counter wraps around instead of growing by one. *)
Lemma update_does_not_always_count :
  (~ exists s',
       MetaSGDWD._Opt_update cell7_theta cell7_opt_state mismatched_grads py_None
         = Ok s' /\
       LOptState.iteration s' = (LOptState.iteration cell7_opt_state + 1)%Z) /\
  (~ exists s',
       opt_update (HParamControllerLOPT.opt_fn cell24_theta)
         cell24_opt_state cell24_fake_grads no_kwargs = Ok s' /\
       HParamControllerInnerOptState.iteration s'
         = (HParamControllerInnerOptState.iteration cell24_opt_state + 1)%Z) /\
  (exists s',
       MetaSGDWD._Opt_update cell7_theta last_int32_state cell7_fake_grads py_None
         = Ok s' /\
       LOptState.iteration s' = INT32_MIN /\
       LOptState.iteration s' <> (LOptState.iteration last_int32_state + 1)%Z).
Proof.
  split; [|split].
  - intros (s' & H & _). vm_compute in H. discriminate.
  - intros (s' & H & _). vm_compute in H. discriminate.
  - eexists. split; [vm_compute; reflexivity|]. split; [reflexivity|].
    vm_compute. discriminate.
Qed.

Lemma iteration_counts_updates_witness :
  (exists s, HParamControllerLOPT._Opt_init cell24_theta cell24_params py_None = Ok s /\
             HParamControllerInnerOptState.iteration s = 0%Z) /\
  (exists s', MetaSGDWD._Opt_update cell7_theta cell7_opt_state cell7_fake_grads py_None
                = Ok s' /\ LOptState.iteration s' = 1%Z) /\
  (exists s', MetaSGDWD._Opt_update cell7_theta none_first_state none_first_grads
                py_None = Ok s' /\ LOptState.iteration s' = 1%Z) /\
  (exists s', PerParamMLP._Opt_update PerParamMLP.default cell14_theta
                cell14_opt_state cell14_fake_grads py_None = Ok s' /\
              PerParamState.iteration s' = 1%Z) /\
  (exists s', HParamControllerLOPT._Opt_update cell24_theta cell24_opt_state
                cell24_fake_grads (Leaf (pyf 1.0)) py_None = Ok s' /\
              HParamControllerInnerOptState.iteration s' = 1%Z) /\
  int32_add 41 1 = 42%Z.
Proof.
  destruct (@iteration_counts_updates pyfloat sym nat _ _)
    as (_ & _ & Hinit & Hmeta & Hper & Hrnn & Hadd & _).
  split; [|split; [|split; [|split; [|split]]]].
  - exact (Hinit cell24_theta cell24_params py_None cell24_initial_state eq_refl).
  - destruct (MetaSGDWD._Opt_update cell7_theta cell7_opt_state
                cell7_fake_grads py_None) as [s'|e] eqn:E;
      [|vm_compute in E; discriminate].
    exists s'. split; [reflexivity|]. rewrite (Hmeta _ _ _ _ _ E). reflexivity.
  - destruct (MetaSGDWD._Opt_update cell7_theta none_first_state
                none_first_grads py_None) as [s'|e] eqn:E;
      [|vm_compute in E; discriminate].
    exists s'. split; [reflexivity|]. rewrite (Hmeta _ _ _ _ _ E). reflexivity.
  - destruct (PerParamMLP._Opt_update PerParamMLP.default cell14_theta
                cell14_opt_state cell14_fake_grads py_None) as [s'|e] eqn:E;
      [|vm_compute in E; discriminate].
    exists s'. split; [reflexivity|]. rewrite (Hper _ _ _ _ _ _ E). reflexivity.
  - destruct (HParamControllerLOPT._Opt_update cell24_theta cell24_opt_state
                cell24_fake_grads (Leaf (pyf 1.0)) py_None) as [s'|e] eqn:E;
      [|vm_compute in E; discriminate].
    exists s'. split; [reflexivity|]. rewrite (Hrnn _ _ _ _ _ _ E). reflexivity.
  - apply Hadd. unfold INT32_MIN, INT32_MAX. lia.
Defined.

(** C2, as stated, fails: called with only the state and the gradients,
    the update of [HParamControllerLOPT] reaches its assertion
    [loss is not None] and raises. *)
Lemma HParam_update_without_loss_raises :
  opt_update (HParamControllerLOPT.opt_fn cell24_theta)
    cell24_opt_state cell24_fake_grads no_kwargs = Raise AssertionError /\
  ~ is_Ok (opt_update (HParamControllerLOPT.opt_fn cell24_theta)
             cell24_opt_state cell24_fake_grads no_kwargs).
Proof. split; [reflexivity | apply not_is_Ok_Raise]. Qed.

Lemma update_with_state_and_grads_only_witness :
  is_Ok (opt_update (MetaSGDWD.opt_fn cell7_theta)
           cell7_opt_state cell7_fake_grads no_kwargs) /\
  is_Ok (opt_update (PerParamMLP.opt_fn PerParamMLP.default cell14_theta)
           cell14_opt_state cell14_fake_grads no_kwargs) /\
  is_Ok (opt_update (HParamControllerLOPT.opt_fn cell24_theta)
           cell24_opt_state cell24_fake_grads (mk_kwargs (Leaf (pyf 1.0)) py_None)).
Proof.
  destruct (@update_with_state_and_grads_only pyfloat sym nat _ _)
    as (_ & Hmeta & Hper & Hrnn).
  split; [|split].
  - eapply Hmeta; [reflexivity | reflexivity | reflexivity |].
    repeat constructor; eexists; reflexivity.
  - eapply Hper; [reflexivity | reflexivity | |].
    + repeat (constructor; [reflexivity|]). constructor.
    + repeat (constructor; [eexists; reflexivity|]). constructor.
  - eapply Hrnn; [reflexivity | reflexivity | reflexivity | reflexivity
                 | reflexivity |].
    repeat constructor; eexists; reflexivity.
Defined.

Lemma MetaSGDWD_update_arithmetic_witness :
  is_Ok (MetaSGDWD._Opt_update cell7_theta cell7_opt_state cell7_fake_grads py_None) /\
  (exists s',
     MetaSGDWD._Opt_update cell7_theta cell7_opt_state cell7_fake_grads py_None
       = Ok s' /\
     jax.tree_structure (LOptState.params s') = jax.tree_structure cell7_fake_params /\
     exists x y z v,
       jax.tree_leaves (LOptState.params s') !! 0%nat = Some v /\
       jnp_mul (pyf (-1.0)) (jnp_exp (jnp_log (pyf 0.001))) = Ok x /\
       jnp_sub (pyf 1.0) x = Ok y /\
       jnp_mul (pyf 1.0) (jnp_exp (jnp_log (pyf 0.01))) = Ok z /\
       jnp_sub y z = Ok v) /\
  LOptState.params <$>
    MetaSGDWD._Opt_update cell7_theta last_int32_state cell7_fake_grads
      (Leaf (pyf 3.0))
  = LOptState.params <$>
    MetaSGDWD._Opt_update cell7_theta cell7_opt_state cell7_fake_grads py_None /\
  (exists s',
     MetaSGDWD._Opt_update cell7_theta none_first_state none_first_grads py_None
       = Ok s' /\
     exists x y z v,
       jax.leaf_at [1%nat] (LOptState.params s') = Some v /\
       jnp_mul (neg (ones [2%nat])) (jnp_exp (jnp_log (pyf 0.001))) = Ok x /\
       jnp_sub (ones [2%nat]) x = Ok y /\
       jnp_mul (ones [2%nat]) (jnp_exp (jnp_log (pyf 0.01))) = Ok z /\
       jnp_sub y z = Ok v).
Proof.
  split; [|split; [|split]].
  - destruct (MetaSGDWD_update_arithmetic
                cell7_theta cell7_opt_state cell7_fake_grads py_None)
      as (_ & Hret & _).
    eapply Hret; [reflexivity | reflexivity | reflexivity |].
    repeat constructor; do 4 eexists; repeat split; reflexivity.
  - destruct (MetaSGDWD_update_arithmetic
                cell7_theta cell7_opt_state cell7_fake_grads py_None)
      as (Hleaf & _).
    destruct (MetaSGDWD._Opt_update cell7_theta cell7_opt_state
                cell7_fake_grads py_None) as [s'|e] eqn:E;
      [|vm_compute in E; discriminate].
    exists s'. split; [reflexivity|].
    destruct (Hleaf s' eq_refl eq_refl) as (a & b & Ha & Hb & Hs & Hi).
    split; [exact Hs|].
    injection Ha as <-. injection Hb as <-.
    destruct (Hi 0%nat (pyf 1.0) eq_refl) as (gl & x & y & z & v & Hgl & H).
    injection Hgl as <-. exists x, y, z, v. exact H.
  - destruct (MetaSGDWD_update_arithmetic
                cell7_theta cell7_opt_state cell7_fake_grads py_None)
      as (_ & _ & Hdep & _).
    apply Hdep; reflexivity.
  - destruct (MetaSGDWD_update_arithmetic
                cell7_theta none_first_state none_first_grads py_None)
      as (_ & _ & _ & Hpath).
    destruct (MetaSGDWD._Opt_update cell7_theta none_first_state
                none_first_grads py_None) as [s'|e] eqn:E;
      [|vm_compute in E; discriminate].
    exists s'. split; [reflexivity|].
    destruct (Hpath s' eq_refl) as (a & b & Ha & Hb & _ & Hi).
    injection Ha as <-. injection Hb as <-.
    destruct (Hi [1%nat] (ones [2%nat]) eq_refl)
      as (gl & x & y & z & v & Hgl & H).
    injection Hgl as <-. exists x, y, z, v. exact H.
Defined.

Lemma model_state_passes_through_witness :
  (exists s,
     HParamControllerLOPT._Opt_init cell24_theta cell24_params (Leaf (pyf 7.0))
       = Ok s /\
     HParamControllerInnerOptState.model_state s = Leaf (pyf 7.0)) /\
  (exists s',
     MetaSGDWD._Opt_update cell7_theta
       (LOptState.mk cell7_fake_params (Leaf (pyf 5.0)) 0)
       cell7_fake_grads (Leaf (pyf 7.0)) = Ok s' /\
     LOptState.model_state s' = Leaf (pyf 7.0)) /\
  (exists s',
     PerParamMLP._Opt_update PerParamMLP.default cell14_theta
       (PerParamMLP._Opt_init cell14_fake_params (Leaf (pyf 5.0)))
       cell14_fake_grads (Leaf (pyf 7.0)) = Ok s' /\
     PerParamState.model_state s' = Leaf (pyf 7.0)) /\
  (exists s',
     HParamControllerLOPT._Opt_update cell24_theta
       (HParamControllerInnerOptState.mk cell24_params (Leaf (pyf 5.0)) 0
          cell24_initial_state)
       cell24_fake_grads (Leaf (pyf 1.0)) (Leaf (pyf 7.0)) = Ok s' /\
     HParamControllerInnerOptState.model_state s' = Leaf (pyf 7.0)) /\
  (exists s',
     opt_update (MetaSGDWD.opt_fn cell7_theta)
       (LOptState.mk cell7_fake_params (Leaf (pyf 5.0)) 0)
       cell7_fake_grads no_kwargs = Ok s' /\
     LOptState.model_state s' = py_None) /\
  (exists s',
     opt_update (PerParamMLP.opt_fn PerParamMLP.default cell14_theta)
       (PerParamMLP._Opt_init cell14_fake_params (Leaf (pyf 5.0)))
       cell14_fake_grads no_kwargs = Ok s' /\
     PerParamState.model_state s' = py_None) /\
  (exists s',
     opt_update (HParamControllerLOPT.opt_fn cell24_theta)
       (HParamControllerInnerOptState.mk cell24_params (Leaf (pyf 5.0)) 0
          cell24_initial_state)
       cell24_fake_grads (mk_kwargs (Leaf (pyf 1.0)) py_None) = Ok s' /\
     HParamControllerInnerOptState.model_state s' = py_None).
Proof.
  destruct (@model_state_passes_through pyfloat sym nat _ _)
    as (_ & _ & Hi & Hm & Hp & Hr & Hm0 & Hp0 & Hr0 & _).
  repeat split.
  - destruct (HParamControllerLOPT._Opt_init cell24_theta cell24_params
                (Leaf (pyf 7.0))) as [s|e] eqn:E; [|vm_compute in E; discriminate].
    exists s. split; [reflexivity|]. exact (Hi _ _ _ _ E).
  - match goal with |- exists s', ?u = _ /\ _ =>
      destruct u as [s'|e] eqn:E; [|vm_compute in E; discriminate] end.
    exists s'. split; [reflexivity|]. exact (Hm _ _ _ _ _ E).
  - match goal with |- exists s', ?u = _ /\ _ =>
      destruct u as [s'|e] eqn:E; [|vm_compute in E; discriminate] end.
    exists s'. split; [reflexivity|]. exact (Hp _ _ _ _ _ _ E).
  - match goal with |- exists s', ?u = _ /\ _ =>
      destruct u as [s'|e] eqn:E; [|vm_compute in E; discriminate] end.
    exists s'. split; [reflexivity|]. exact (Hr _ _ _ _ _ _ E).
  - match goal with |- exists s', ?u = _ /\ _ =>
      destruct u as [s'|e] eqn:E; [|vm_compute in E; discriminate] end.
    exists s'. split; [reflexivity|]. exact (Hm0 _ _ _ _ E).
  - match goal with |- exists s', ?u = _ /\ _ =>
      destruct u as [s'|e] eqn:E; [|vm_compute in E; discriminate] end.
    exists s'. split; [reflexivity|]. exact (Hp0 _ _ _ _ _ E).
  - match goal with |- exists s', ?u = _ /\ _ =>
      destruct u as [s'|e] eqn:E; [|vm_compute in E; discriminate] end.
    exists s'. split; [reflexivity|]. exact (Hr0 _ _ _ _ _ E).
Defined.

Lemma HParam_update_controller_step_witness :
  is_Ok (HParamControllerLOPT._Opt_update cell24_theta cell24_opt_state
           cell24_fake_grads (Leaf (pyf 1.0)) py_None) /\
  (exists s' batched_loss output next_state log_lr lr x v,
     HParamControllerLOPT._Opt_update cell24_theta cell24_opt_state
       cell24_fake_grads (Leaf (pyf 1.0)) py_None = Ok s' /\
     jnp_reshape (pyf 1.0) [1; 1]%nat = Ok batched_loss /\
     hk_LSTM (Leaf (SVar "rnn_params" [])) 128 batched_loss cell24_initial_state
       = Ok (output, next_state) /\
     hk_Linear (Leaf (SVar "rnn_params" [])) 1 output = Ok log_lr /\
     jnp_mul (jnp_exp log_lr) (jnp_asarray (float_lit 0.01)) = Ok lr /\
     HParamControllerInnerOptState.rnn_hidden_state s' = next_state /\
     jax.tree_leaves (HParamControllerInnerOptState.params s') !! 0%nat = Some v /\
     jnp_mul (neg (ones [3; 2]%nat)) lr = Ok x /\
     jnp_sub (ones [3; 2]%nat) x = Ok v) /\
  (exists s' batched_loss output next_state log_lr lr x v,
     HParamControllerLOPT._Opt_update cell24_theta none_first_controller_state
       none_first_grads (Leaf (pyf 1.0)) py_None = Ok s' /\
     jnp_reshape (pyf 1.0) [1; 1]%nat = Ok batched_loss /\
     hk_LSTM (Leaf (SVar "rnn_params" [])) 128 batched_loss cell24_initial_state
       = Ok (output, next_state) /\
     hk_Linear (Leaf (SVar "rnn_params" [])) 1 output = Ok log_lr /\
     jnp_mul (jnp_exp log_lr) (jnp_asarray (float_lit 0.01)) = Ok lr /\
     jax.leaf_at [1%nat] (HParamControllerInnerOptState.params s') = Some v /\
     jnp_mul (neg (ones [2%nat])) lr = Ok x /\
     jnp_sub (ones [2%nat]) x = Ok v).
Proof.
  split; [|split].
  - destruct (HParam_update_controller_step cell24_theta cell24_opt_state
                cell24_fake_grads (Leaf (pyf 1.0)) py_None) as (_ & Hret).
    eapply Hret; try reflexivity.
    repeat constructor; do 2 eexists; split; reflexivity.
  - destruct (HParam_update_controller_step cell24_theta cell24_opt_state
                cell24_fake_grads (Leaf (pyf 1.0)) py_None) as (Hstep & _).
    destruct (HParamControllerLOPT._Opt_update cell24_theta cell24_opt_state
                cell24_fake_grads (Leaf (pyf 1.0)) py_None) as [s'|e] eqn:E;
      [|vm_compute in E; discriminate].
    destruct (Hstep s' eq_refl)
      as (l & bl & rp & output & next & log_lr & lr
          & Hl & Hbl & Hrp & Hlstm & Hlin & Hlr & Hnext & _ & _ & Hi).
    injection Hl as <-. injection Hrp as <-.
    destruct (Hi eq_refl 0%nat (ones [3; 2]%nat) eq_refl)
      as (gl & x & v & Hgl & Hv & Hx & Hsub).
    injection Hgl as <-.
    exists s', bl, output, next, log_lr, lr, x, v. done.
  - destruct (HParam_update_controller_step cell24_theta
                none_first_controller_state none_first_grads
                (Leaf (pyf 1.0)) py_None) as (Hstep & _).
    destruct (HParamControllerLOPT._Opt_update cell24_theta
                none_first_controller_state none_first_grads
                (Leaf (pyf 1.0)) py_None) as [s'|e] eqn:E;
      [|vm_compute in E; discriminate].
    destruct (Hstep s' eq_refl)
      as (l & bl & rp & output & next & log_lr & lr
          & Hl & Hbl & Hrp & Hlstm & Hlin & Hlr & Hnext & _ & Hp & _).
    injection Hl as <-. injection Hrp as <-.
    destruct (Hp [1%nat] (ones [2%nat]) eq_refl)
      as (gl & x & v & Hgl & Hv & Hx & Hsub).
    injection Hgl as <-.
    exists s', bl, output, next, log_lr, lr, x, v. done.
Defined.

Lemma HParam_init_copies_initial_rnn_state_witness :
  exists s,
    HParamControllerLOPT._Opt_init cell24_theta cell24_params py_None = Ok s /\
    HParamControllerInnerOptState.rnn_hidden_state s = cell24_initial_state /\
    HParamControllerInnerOptState.params s = cell24_params.
Proof.
  destruct (@HParam_init_copies_initial_rnn_state pyfloat sym nat _ _
              cell24_theta cell24_params py_None cell24_initial_state eq_refl)
    as (s & Hs & Hh & Hp & _).
  exists s. done.
Defined.

(** Cell 14 starts from all-zero momentums of the shapes [[2, 3]] and
    [[1]]. *)
Example cell14_initial_momentums :
  PerParamState.momentums cell14_opt_state
  = dict [("a", Leaf (SZeros [2; 3]%nat)); ("b", Leaf (SZeros [1%nat]))].
Proof. reflexivity. Qed.

(** C6 fails on the code.  On the leaf [b] of cell 14 (parameter
    [ones([1])], gradient [-ones([1])], momentum [zeros([1])]) the new
    momentum [m'] is as claimed, but the new parameter is
    [m' - net(theta, p, g, m')]: the step of the network applied to
    [(grads := p, momentum := g, params := m')], subtracted from the new
    momentum.  The claim states [p - net(theta, g, m', p)]. *)
Theorem PerParamMLP_update_permutes_leaf_arguments :
  let p := ones [1%nat] in
  let g := neg (ones [1%nat]) in
  let nn := Leaf (SVar "nn" []) in
  exists m' step_code step_claim v_code v_claim,
    PerParamMLP._update_one_momentum PerParamMLP.default (SZeros [1%nat]) (Leaf g)
      = Ok m' /\
    PerParamMLP._Opt_update PerParamMLP.default cell14_theta
      leaf_b_opt_state leaf_b_grads py_None
    = Ok (PerParamState.mk (dict [("b", Leaf v_code)]) py_None 1
            (dict [("b", Leaf m')])) /\
    PerParamMLP.forward PerParamMLP.default nn p g m' = Ok step_code /\
    jnp_sub m' step_code = Ok v_code /\
    PerParamMLP.forward PerParamMLP.default nn g m' p = Ok step_claim /\
    jnp_sub p step_claim = Ok v_claim /\
    v_code <> v_claim.
Proof.
  intros p g nn. do 5 eexists.
  split; [reflexivity|]. split; [vm_compute; reflexivity|].
  split; [reflexivity|]. split; [reflexivity|].
  split; [reflexivity|]. split; [reflexivity|].
  discriminate.
Qed.

(** * Further properties of the notebook's code *)

(** ** int32 counters *)

Lemma int32_wrap_small (z : Z) :
  (INT32_MIN <= z <= INT32_MAX)%Z -> int32_wrap z = z.
Proof.
  unfold INT32_MIN, INT32_MAX, int32_wrap. intros H.
  rewrite Z.mod_small by lia. lia.
Qed.

Lemma int32_wrap_add_l (a b : Z) :
  int32_wrap (int32_wrap a + b) = int32_wrap (a + b).
Proof.
  unfold int32_wrap. f_equal.
  replace ((a + 2 ^ 31) mod 2 ^ 32 - 2 ^ 31 + b + 2 ^ 31)%Z
    with ((a + 2 ^ 31) mod 2 ^ 32 + b)%Z by lia.
  rewrite Zplus_mod_idemp_l. f_equal. lia.
Qed.

(** ** Runs *)

Lemma opt_run_cons {arr State} (opt : Optimizer arr State) s g kw steps s' :
  opt_run opt s ((g, kw) :: steps) = Ok s' <->
  exists s1, opt_update opt s g kw = Ok s1 /\ opt_run opt s1 steps = Ok s'.
Proof. simpl. apply bind_Ok. Qed.

(** A counter that every update increments counts the steps of a run. *)
Lemma opt_run_counts {arr State} (opt : Optimizer arr State) (it : State -> Z) :
  (forall s g kw s', opt_update opt s g kw = Ok s' -> it s' = int32_add (it s) 1) ->
  forall steps s s',
    opt_run opt s steps = Ok s' ->
    int32_wrap (it s') = int32_wrap (it s + Z.of_nat (length steps)) /\
    (steps <> [] -> it s' = int32_wrap (it s + Z.of_nat (length steps))).
Proof.
  intros Hupd. induction steps as [|[g kw] steps IH]; intros s s'.
  - simpl. intros [= <-]. split; [by rewrite Z.add_0_r | done].
  - intros (s1 & H1 & Hrun)%opt_run_cons.
    apply Hupd in H1. destruct (IH _ _ Hrun) as [IHw IHne].
    assert (int32_wrap (it s1 + Z.of_nat (length steps))
            = int32_wrap (it s + Z.of_nat (length ((g, kw) :: steps)))) as Hs1.
    { rewrite H1. unfold int32_add. rewrite int32_wrap_add_l. f_equal.
      rewrite length_cons. lia. }
    split; [congruence|]. intros _.
    destruct steps as [|step steps'].
    + simpl in Hrun. injection Hrun as <-. rewrite H1. unfold int32_add.
      f_equal.
    + rewrite IHne by done. exact Hs1.
Qed.

(** What every update keeps is kept by a run. *)
Lemma opt_run_keeps {arr State X} (opt : Optimizer arr State)
  (shape_of : State -> X) :
  (forall s g kw s', opt_update opt s g kw = Ok s' -> shape_of s' = shape_of s) ->
  forall steps s s', opt_run opt s steps = Ok s' -> shape_of s' = shape_of s.
Proof.
  intros Hupd. induction steps as [|[g kw] steps IH]; intros s s'.
  - simpl. by intros [= <-].
  - intros (s1 & H1 & Hrun)%opt_run_cons.
    rewrite (IH _ _ Hrun). by apply (Hupd _ _ _ _ H1).
Qed.

Lemma getitem_dict_missing {A} (kvs : list (string * pytree A)) (key : string) :
  key ∉ kvs.*1 -> getitem (dict kvs) key = Raise KeyError.
Proof.
  unfold dict, getitem. induction kvs as [|[k v] kvs IH]; simpl; [done|].
  intros Hnot. apply not_elem_of_cons in Hnot as [Hne Hnot].
  rewrite decide_False by done. by apply IH.
Qed.

Section Extras.
Context {float arr PRNGKey : Type} `{!Numpy float arr, !Haiku arr PRNGKey}.

(** ** [PerParamMLP]: the momentums follow the params *)

(** X1: the inner [init] of [PerParamMLP] gives momentums with the tree
    structure of the params; an [update] that returns keeps the tree
    structure of the params and that of the momentums; so in every state
    that a run reaches from the state of [init], the momentums have the
    tree structure of the params, which is that of the initial params. *)
Theorem PerParamMLP_momentums_follow_params :
  (forall params ms : pytree arr,
     jax.tree_structure (PerParamState.momentums (PerParamMLP._Opt_init params ms))
     = jax.tree_structure params) /\
  (forall parent theta (s : PerParamState.t arr) g ms s',
     PerParamMLP._Opt_update parent theta s g ms = Ok s' ->
     jax.tree_structure (PerParamState.params s')
       = jax.tree_structure (PerParamState.params s) /\
     jax.tree_structure (PerParamState.momentums s')
       = jax.tree_structure (PerParamState.momentums s)) /\
  (forall parent theta (params ms : pytree arr) steps s0 s',
     opt_init (PerParamMLP.opt_fn parent theta) params ms = Ok s0 ->
     opt_run (PerParamMLP.opt_fn parent theta) s0 steps = Ok s' ->
     jax.tree_structure (PerParamState.params s') = jax.tree_structure params /\
     jax.tree_structure (PerParamState.momentums s')
       = jax.tree_structure (PerParamState.params s')).
Proof.
  split; [|split].
  - intros params ms. apply tree_structure_map.
  - intros parent theta s g ms s'. apply PerParamMLP_update_structure.
  - intros parent theta params ms steps s0 s' [= <-] Hrun.
    pose proof (opt_run_keeps (PerParamMLP.opt_fn parent theta)
                  (fun s => jax.tree_structure (PerParamState.params s))
                  (fun s g kw s1 H =>
                     proj1 (PerParamMLP_update_structure _ _ _ _ _ _ H))
                  _ _ _ Hrun) as Hp.
    pose proof (opt_run_keeps (PerParamMLP.opt_fn parent theta)
                  (fun s => jax.tree_structure (PerParamState.momentums s))
                  (fun s g kw s1 H =>
                     proj2 (PerParamMLP_update_structure _ _ _ _ _ _ H))
                  _ _ _ Hrun) as Hm.
    simpl in Hp, Hm. split; [exact Hp|].
    rewrite Hm, Hp. apply tree_structure_map.
Qed.

(** ** Runs of inner training *)

(** X2: in a run that starts from the state returned by the inner [init],
    the iteration of the final state is the number of steps taken, as an
    int32: equal to the number of steps up to [2^31 - 1], wrapped around
    beyond.  This holds for the three optimizers. *)
Theorem run_from_init_counts_steps :
  (forall theta params ms steps (s0 s' : LOptState.t arr),
     opt_init (MetaSGDWD.opt_fn theta) params ms = Ok s0 ->
     opt_run (MetaSGDWD.opt_fn theta) s0 steps = Ok s' ->
     LOptState.iteration s' = int32_wrap (Z.of_nat (length steps)) /\
     ((Z.of_nat (length steps) <= INT32_MAX)%Z ->
      LOptState.iteration s' = Z.of_nat (length steps))) /\
  (forall parent theta params ms steps (s0 s' : PerParamState.t arr),
     opt_init (PerParamMLP.opt_fn parent theta) params ms = Ok s0 ->
     opt_run (PerParamMLP.opt_fn parent theta) s0 steps = Ok s' ->
     PerParamState.iteration s' = int32_wrap (Z.of_nat (length steps)) /\
     ((Z.of_nat (length steps) <= INT32_MAX)%Z ->
      PerParamState.iteration s' = Z.of_nat (length steps))) /\
  (forall theta params ms steps (s0 s' : HParamControllerInnerOptState.t arr),
     opt_init (HParamControllerLOPT.opt_fn theta) params ms = Ok s0 ->
     opt_run (HParamControllerLOPT.opt_fn theta) s0 steps = Ok s' ->
     HParamControllerInnerOptState.iteration s'
       = int32_wrap (Z.of_nat (length steps)) /\
     ((Z.of_nat (length steps) <= INT32_MAX)%Z ->
      HParamControllerInnerOptState.iteration s' = Z.of_nat (length steps))).
Proof.
  assert (forall State (opt : Optimizer arr State) (it : State -> Z) steps s0 s',
            (forall s g kw s', opt_update opt s g kw = Ok s' ->
                               it s' = int32_add (it s) 1) ->
            it s0 = 0%Z -> opt_run opt s0 steps = Ok s' ->
            it s' = int32_wrap (Z.of_nat (length steps)) /\
            ((Z.of_nat (length steps) <= INT32_MAX)%Z ->
             it s' = Z.of_nat (length steps))) as Hgen.
  { intros State opt it steps s0 s' Hupd H0 Hrun.
    destruct (opt_run_counts opt it Hupd steps s0 s' Hrun) as [_ Hne].
    rewrite H0 in Hne. simpl in Hne.
    assert (it s' = int32_wrap (Z.of_nat (length steps))) as Hit.
    { destruct steps as [|step steps]; [|by apply Hne].
      simpl in Hrun. injection Hrun as <-. by rewrite H0. }
    split; [done|]. intros Hle. rewrite Hit. apply int32_wrap_small.
    unfold INT32_MIN. unfold INT32_MAX in *. lia. }
  split; [|split].
  - intros theta params ms steps s0 s' [= <-] Hrun.
    refine (Hgen _ _ LOptState.iteration _ _ _ _ _ Hrun); [|done].
    intros s g kw s1 Hs1.
    by apply MetaSGDWD_update_Ok in Hs1 as (a & b & next & _ & _ & _ & ->).
  - intros parent theta params ms steps s0 s' [= <-] Hrun.
    refine (Hgen _ _ PerParamState.iteration _ _ _ _ _ Hrun); [|done].
    intros s g kw s1 Hs1.
    by apply PerParamMLP_update_Ok in Hs1 as (nm & np & _ & _ & ->).
  - intros theta params ms steps s0 s' Hinit Hrun.
    apply HParam_init_Ok in Hinit as (h & _ & ->).
    refine (Hgen _ _ HParamControllerInnerOptState.iteration _ _ _ _ _ Hrun);
      [|done].
    intros s g kw s1 Hs1.
    by apply HParam_update_Ok in Hs1
      as (l & bl & rp & next & lr & np & _ & _ & _ & _ & _ & ->).
Qed.

(** X3: a run keeps the tree structure of the params (and, for
    [PerParamMLP], of the momentums): whatever the gradients and however
    many steps, the final state of a run that returns has the structure
    of the state it started from. *)
Theorem run_keeps_tree_structure :
  (forall theta steps (s s' : LOptState.t arr),
     opt_run (MetaSGDWD.opt_fn theta) s steps = Ok s' ->
     jax.tree_structure (LOptState.params s')
       = jax.tree_structure (LOptState.params s)) /\
  (forall parent theta steps (s s' : PerParamState.t arr),
     opt_run (PerParamMLP.opt_fn parent theta) s steps = Ok s' ->
     jax.tree_structure (PerParamState.params s')
       = jax.tree_structure (PerParamState.params s) /\
     jax.tree_structure (PerParamState.momentums s')
       = jax.tree_structure (PerParamState.momentums s)) /\
  (forall theta steps (s s' : HParamControllerInnerOptState.t arr),
     opt_run (HParamControllerLOPT.opt_fn theta) s steps = Ok s' ->
     jax.tree_structure (HParamControllerInnerOptState.params s')
       = jax.tree_structure (HParamControllerInnerOptState.params s)).
Proof.
  split; [|split].
  - intros theta. apply (opt_run_keeps (MetaSGDWD.opt_fn theta)
      (fun s => jax.tree_structure (LOptState.params s))).
    intros s g kw s'. apply MetaSGDWD_update_structure.
  - intros parent theta steps s s' Hrun. split.
    + revert Hrun. apply (opt_run_keeps (PerParamMLP.opt_fn parent theta)
        (fun s => jax.tree_structure (PerParamState.params s))).
      intros s1 g kw s1' H.
      exact (proj1 (PerParamMLP_update_structure _ _ _ _ _ _ H)).
    + revert Hrun. apply (opt_run_keeps (PerParamMLP.opt_fn parent theta)
        (fun s => jax.tree_structure (PerParamState.momentums s))).
      intros s1 g kw s1' H.
      exact (proj2 (PerParamMLP_update_structure _ _ _ _ _ _ H)).
  - intros theta. apply (opt_run_keeps (HParamControllerLOPT.opt_fn theta)
      (fun s => jax.tree_structure (HParamControllerInnerOptState.params s))).
    intros s g kw s'. apply HParam_update_structure.
Qed.

(** ** What the updates never read *)

(** X4: the controller of [HParamControllerLOPT] looks at the loss and at
    its hidden state only: two updates with the same theta, loss and
    hidden state, on any params and gradients, store the same next hidden
    state and move their params with one and the same learning rate:
    every leaf [p] of either params becomes [p - g * lr], where [g] is
    the array that the gradients hold at the position of [p]. *)
Theorem HParam_controller_ignores_params_and_grads
  theta loss h (p1 p2 m1 m2 g1 g2 ms1 ms2 : pytree arr) it1 it2 s1' s2' :
  HParamControllerLOPT._Opt_update theta
    (HParamControllerInnerOptState.mk p1 m1 it1 h) g1 loss ms1 = Ok s1' ->
  HParamControllerLOPT._Opt_update theta
    (HParamControllerInnerOptState.mk p2 m2 it2 h) g2 loss ms2 = Ok s2' ->
  HParamControllerInnerOptState.rnn_hidden_state s1'
    = HParamControllerInnerOptState.rnn_hidden_state s2' /\
  exists lr,
    (forall path p, jax.leaf_at path p1 = Some p ->
       exists gl x v,
         jax.leaf_at path g1 = Some gl /\
         jax.leaf_at path (HParamControllerInnerOptState.params s1') = Some v /\
         jnp_mul gl lr = Ok x /\ jnp_sub p x = Ok v) /\
    (forall path p, jax.leaf_at path p2 = Some p ->
       exists gl x v,
         jax.leaf_at path g2 = Some gl /\
         jax.leaf_at path (HParamControllerInnerOptState.params s2') = Some v /\
         jnp_mul gl lr = Ok x /\ jnp_sub p x = Ok v).
Proof.
  intros (l & bl & rp & next & lr & np & -> & Hbl & Hrp & Hf & Hnp & ->)%HParam_update_Ok
         (l' & bl' & rp' & next' & lr' & np' & [= <-] & Hbl' & Hrp' & Hf' & Hnp' & ->)%HParam_update_Ok.
  simpl in *.
  rewrite Hbl in Hbl'. injection Hbl' as <-.
  rewrite Hrp in Hrp'. injection Hrp' as <-.
  rewrite Hf in Hf'. injection Hf' as <- <-.
  split; [done|]. exists lr. split.
  - intros path p Hp.
    destruct (tree_map2_paths _ _ _ _ Hnp path p Hp) as (o & v & Ho & Hu & Hv).
    apply HParam_update_one_Ok in Hu as (gl & x & -> & Hx & Hu).
    apply subtree_leaf_at in Ho. eauto 10.
  - intros path p Hp.
    destruct (tree_map2_paths _ _ _ _ Hnp' path p Hp) as (o & v & Ho & Hu & Hv).
    apply HParam_update_one_Ok in Hu as (gl & x & -> & Hx & Hu).
    apply subtree_leaf_at in Ho. eauto 10.
Qed.

(** X5: the momentums of [PerParamMLP] are a running average of the
    gradients alone: the new momentums depend on the old momentums, the
    gradients and [decay], not on theta, on the size of the network or on
    the params. *)
Theorem PerParamMLP_momentums_ignore_network
  parent1 parent2 theta1 theta2 (moms g p1 p2 m1 m2 ms1 ms2 : pytree arr)
  it1 it2 s1' s2' :
  PerParamMLP.decay parent1 = PerParamMLP.decay parent2 ->
  PerParamMLP._Opt_update parent1 theta1 (PerParamState.mk p1 m1 it1 moms) g ms1
    = Ok s1' ->
  PerParamMLP._Opt_update parent2 theta2 (PerParamState.mk p2 m2 it2 moms) g ms2
    = Ok s2' ->
  PerParamState.momentums s1' = PerParamState.momentums s2'.
Proof.
  intros Hdecay (nm & np & Hnm & _ & ->)%PerParamMLP_update_Ok
         (nm' & np' & Hnm' & _ & ->)%PerParamMLP_update_Ok.
  simpl in *. unfold PerParamMLP._update_one_momentum in Hnm, Hnm'.
  rewrite Hdecay in Hnm. congruence.
Qed.

(** X6: none of the three update rules reads the step counter: apart from
    the counter itself, the result of [update] (or the exception it
    raises) is the same whatever the iteration of the input state. *)
Theorem update_never_reads_iteration :
  (forall theta (p m g ms : pytree arr) it1 it2,
     (fun s => (LOptState.params s, LOptState.model_state s))
       <$> MetaSGDWD._Opt_update theta (LOptState.mk p m it1) g ms
     = (fun s => (LOptState.params s, LOptState.model_state s))
       <$> MetaSGDWD._Opt_update theta (LOptState.mk p m it2) g ms) /\
  (forall parent theta (p m moms g ms : pytree arr) it1 it2,
     (fun s => (PerParamState.params s, PerParamState.model_state s,
                PerParamState.momentums s))
       <$> PerParamMLP._Opt_update parent theta (PerParamState.mk p m it1 moms) g ms
     = (fun s => (PerParamState.params s, PerParamState.model_state s,
                  PerParamState.momentums s))
       <$> PerParamMLP._Opt_update parent theta (PerParamState.mk p m it2 moms) g ms) /\
  (forall theta (p m h g loss ms : pytree arr) it1 it2,
     (fun s => (HParamControllerInnerOptState.params s,
                HParamControllerInnerOptState.model_state s,
                HParamControllerInnerOptState.rnn_hidden_state s))
       <$> HParamControllerLOPT._Opt_update theta
             (HParamControllerInnerOptState.mk p m it1 h) g loss ms
     = (fun s => (HParamControllerInnerOptState.params s,
                  HParamControllerInnerOptState.model_state s,
                  HParamControllerInnerOptState.rnn_hidden_state s))
       <$> HParamControllerLOPT._Opt_update theta
             (HParamControllerInnerOptState.mk p m it2 h) g loss ms).
Proof.
  split; [|split].
  - intros theta p m g ms it1 it2. unfold MetaSGDWD._Opt_update. simpl.
    destruct (getitem theta "log_lr") as [v1|]; simpl; [|done].
    destruct (as_array v1); simpl; [|done].
    destruct (getitem theta "log_wd") as [v2|]; simpl; [|done].
    destruct (as_array v2); simpl; [|done].
    by destruct (jax.tree_map2 _ _ _).
  - intros parent theta p m moms g ms it1 it2. unfold PerParamMLP._Opt_update. simpl.
    destruct (jax.tree_map2 _ moms g) as [nm|]; simpl; [|done].
    by destruct (jax.tree_map3 _ _ _ _).
  - intros theta p m h g loss ms it1 it2.
    unfold HParamControllerLOPT._Opt_update. simpl.
    destruct (is_None loss); [done|].
    destruct (as_array loss) as [l|]; simpl; [|done].
    destruct (jnp_reshape l _) as [bl|]; simpl; [|done].
    destruct (getitem theta "rnn_params") as [rp|]; simpl; [|done].
    destruct (HParamControllerLOPT.forward_fn rp h bl) as [[next lr]|]; simpl; [|done].
    by destruct (jax.tree_map2 _ _ _).
Qed.

(** ** Theta and its entries *)

(** X7: [MetaSGDWD]'s update reads both entries of theta before it looks
    at the trees: when [theta["log_lr"]] raises, or [theta["log_wd"]]
    raises after [log_lr] was read as an array, [update] raises the same
    exception for every state and all gradients; a dict theta without the
    key [log_lr] gives [KeyError]. *)
Theorem MetaSGDWD_update_reads_theta_first theta (s : LOptState.t arr) g ms :
  (forall e, getitem theta "log_lr" = Raise e ->
             MetaSGDWD._Opt_update theta s g ms = Raise e) /\
  (forall a e, getitem theta "log_lr" = Ok (Leaf a) ->
               getitem theta "log_wd" = Raise e ->
               MetaSGDWD._Opt_update theta s g ms = Raise e) /\
  (forall kvs, theta = dict kvs -> "log_lr" ∉ kvs.*1 ->
               MetaSGDWD._Opt_update theta s g ms = Raise KeyError).
Proof.
  unfold MetaSGDWD._Opt_update. split; [|split].
  - by intros e ->.
  - by intros a e -> ->.
  - intros kvs -> Hnot. by rewrite (getitem_dict_missing kvs "log_lr" Hnot).
Qed.

(** X8: on a model without parameter leaves, [PerParamMLP]'s update never
    reads theta: for every theta it returns the params and momentums
    unchanged and the counter advanced, provided the three trees have one
    structure. *)
Theorem PerParamMLP_update_without_leaves parent theta
  (s : PerParamState.t arr) g ms :
  jax.tree_leaves (PerParamState.params s) = [] ->
  jax.tree_structure g = jax.tree_structure (PerParamState.params s) ->
  jax.tree_structure (PerParamState.momentums s)
    = jax.tree_structure (PerParamState.params s) ->
  PerParamMLP._Opt_update parent theta s g ms
  = Ok (PerParamState.mk (PerParamState.params s) ms
          (int32_add (PerParamState.iteration s) 1)
          (PerParamState.momentums s)).
Proof.
  intros Hnil Hg Hm.
  assert (jax.tree_leaves g = []) as Hgnil.
  { apply length_zero_iff_nil.
    rewrite (tree_structure_leaves_length _ _ Hg), Hnil. done. }
  assert (jax.tree_leaves (PerParamState.momentums s) = []) as Hmnil.
  { apply length_zero_iff_nil.
    rewrite (tree_structure_leaves_length _ _ Hm), Hnil. done. }
  destruct (PerParamMLP_update_returns parent theta s g ms []) as [s' Hs'].
  { congruence. }
  { done. }
  { rewrite Hmnil, Hgnil. constructor. }
  { rewrite Hnil, Hgnil. constructor. }
  rewrite Hs'. f_equal.
  pose proof (PerParamMLP_update_structure _ _ _ _ _ _ Hs') as (Hps' & Hms').
  apply PerParamMLP_update_Ok in Hs' as (nm & np & Hnm & Hnp & ->).
  simpl in *. f_equal.
  - apply tree_ext; [done|]. rewrite Hnil. apply length_zero_iff_nil.
    rewrite (tree_structure_leaves_length _ _ Hps'), Hnil. done.
  - apply tree_ext; [done|]. rewrite Hmnil. apply length_zero_iff_nil.
    rewrite (tree_structure_leaves_length _ _ Hms'), Hmnil. done.
Qed.

(** X9: with the theta built by [MetaSGDWD.init], whatever the key, the
    inner update finds both entries: it returns whenever the gradients
    have the tree structure of the params and
    [p - g * exp(log(initial_lr)) - p * exp(log(initial_wd))] is defined
    on every pair of leaves; and whenever it returns, the new params have
    the structure of the old ones and hold that value at every leaf [p],
    [g] being the array that the gradients hold at the position of
    [p]. *)
Theorem MetaSGDWD_init_then_update (lopt : MetaSGDWD.self) (key : PRNGKey)
  (s : LOptState.t arr) g ms :
  (jax.tree_structure g = jax.tree_structure (LOptState.params s) ->
   Forall2 (fun p gl => exists x y z v,
              jnp_mul gl (jnp_exp (jnp_log (jnp_asarray (MetaSGDWD._initial_lr lopt))))
                = Ok x /\
              jnp_sub p x = Ok y /\
              jnp_mul p (jnp_exp (jnp_log (jnp_asarray (MetaSGDWD._initial_wd lopt))))
                = Ok z /\
              jnp_sub y z = Ok v)
     (jax.tree_leaves (LOptState.params s)) (jax.tree_leaves g) ->
   is_Ok (MetaSGDWD._Opt_update (MetaSGDWD.init lopt key) s g ms)) /\
  (forall s',
     MetaSGDWD._Opt_update (MetaSGDWD.init lopt key) s g ms = Ok s' ->
     jax.tree_structure (LOptState.params s')
       = jax.tree_structure (LOptState.params s) /\
     forall path p, jax.leaf_at path (LOptState.params s) = Some p ->
       exists gl x y z v,
         jax.leaf_at path g = Some gl /\
         jax.leaf_at path (LOptState.params s') = Some v /\
         jnp_mul gl (jnp_exp (jnp_log (jnp_asarray (MetaSGDWD._initial_lr lopt))))
           = Ok x /\
         jnp_sub p x = Ok y /\
         jnp_mul p (jnp_exp (jnp_log (jnp_asarray (MetaSGDWD._initial_wd lopt))))
           = Ok z /\
         jnp_sub y z = Ok v).
Proof.
  split.
  - intros Hs Hl.
    apply (MetaSGDWD_update_returns (MetaSGDWD.init lopt key) s g ms
             (jnp_log (jnp_asarray (MetaSGDWD._initial_lr lopt)))
             (jnp_log (jnp_asarray (MetaSGDWD._initial_wd lopt))));
      [reflexivity | reflexivity | done |].
    eapply Forall2_impl; [exact Hl|].
    intros p gl (x & y & z & v & H). exists v.
    apply MetaSGDWD_update_one_Ok. exists gl, x, y, z. done.
  - intros s' (a & b & next & [= <-] & [= <-] & Hnext & ->)%MetaSGDWD_update_Ok.
    simpl. split; [by apply tree_map2_structure in Hnext|].
    intros path p Hp.
    destruct (tree_map2_paths _ _ _ _ Hnext path p Hp) as (o & v & Ho & Hf & Hv).
    apply MetaSGDWD_update_one_Ok in Hf as (gl & x & y & z & -> & Hx & Hy & Hz & Hf).
    apply subtree_leaf_at in Ho.
    exists gl, x, y, z, v. done.
Qed.

(** X10: the theta built by [HParamControllerLOPT.init] and by
    [PerParamMLP.init] holds the entries their optimizers read.  For the
    controller: [rnn_params], created by haiku from [forward_fn] on the
    initial state of the LSTM and a zero input of shape [[1, 1]], and
    [initial_rnn_hidden_state]; the inner [init] then returns for all
    params.  For the per-parameter optimizer: [nn], created from [forward]
    on three zero arrays of shape [[10, 10]].  Either [init] raises
    exactly when haiku's [init] does, with the same exception. *)
Theorem learned_optimizer_init_provides_entries :
  (forall (key : PRNGKey) (theta : pytree arr),
     HParamControllerLOPT.init key = Ok theta ->
     exists rnn_params,
       hk_init key
         (fun hk_params =>
            HParamControllerLOPT.forward_fn hk_params
              (hk_LSTM_initial_state 128 1) (jnp_zeros [1; 1]%nat))
         = Ok rnn_params /\
       getitem theta "rnn_params" = Ok rnn_params /\
       getitem theta "initial_rnn_hidden_state"
         = Ok (hk_LSTM_initial_state 128 1) /\
       forall params ms,
         HParamControllerLOPT._Opt_init theta params ms
         = Ok (HParamControllerInnerOptState.mk params ms 0
                 (hk_LSTM_initial_state 128 1))) /\
  (forall parent (key : PRNGKey) (theta : pytree arr),
     PerParamMLP.init parent key = Ok theta ->
     exists nn,
       hk_init key
         (fun nn => PerParamMLP.forward parent nn (jnp_zeros [10; 10]%nat)
                      (jnp_zeros [10; 10]%nat) (jnp_zeros [10; 10]%nat))
         = Ok nn /\
       theta = dict [("nn", nn)] /\
       getitem theta "nn" = Ok nn) /\
  (forall (key : PRNGKey) e,
     HParamControllerLOPT.init (arr := arr) key = Raise e <->
     hk_init key
       (fun hk_params =>
          HParamControllerLOPT.forward_fn hk_params
            (hk_LSTM_initial_state 128 1) (jnp_zeros [1; 1]%nat))
       = Raise e) /\
  (forall parent (key : PRNGKey) e,
     PerParamMLP.init (arr := arr) parent key = Raise e <->
     hk_init key
       (fun nn => PerParamMLP.forward parent nn (jnp_zeros [10; 10]%nat)
                    (jnp_zeros [10; 10]%nat) (jnp_zeros [10; 10]%nat))
       = Raise e).
Proof.
  split; [|split; [|split]].
  - intros key theta.
    unfold HParamControllerLOPT.init, HParamControllerLOPT.initial_state_fn,
      HParamControllerLOPT.rnn_mod. simpl.
    intros (rp & Hrp & [= <-])%bind_Ok. exists rp. done.
  - intros parent key theta. unfold PerParamMLP.init, PerParamMLP.net_init. simpl.
    intros (nn & Hnn & [= <-])%bind_Ok. exists nn. done.
  - intros key e.
    unfold HParamControllerLOPT.init, HParamControllerLOPT.initial_state_fn,
      HParamControllerLOPT.rnn_mod. simpl.
    destruct (hk_init key _) as [rp|e']; simpl; split; congruence.
  - intros parent key e. unfold PerParamMLP.init, PerParamMLP.net_init. simpl.
    destruct (hk_init key _) as [nn|e']; simpl; split; congruence.
Qed.

(** ** Recurrence *)

(** X11: the hidden state of the controller threads through successive
    updates: the second update runs the LSTM on the state the first one
    stored, with the same [rnn_params]. *)
Theorem HParam_hidden_state_threads theta
  (s s1 s2 : HParamControllerInnerOptState.t arr) g1 g2 loss1 loss2 ms1 ms2 :
  HParamControllerLOPT._Opt_update theta s g1 loss1 ms1 = Ok s1 ->
  HParamControllerLOPT._Opt_update theta s1 g2 loss2 ms2 = Ok s2 ->
  exists rnn_params l1 l2 b1 b2 out1 h1 out2 h2,
    getitem theta "rnn_params" = Ok rnn_params /\
    loss1 = Leaf l1 /\ loss2 = Leaf l2 /\
    jnp_reshape l1 [1; 1]%nat = Ok b1 /\
    jnp_reshape l2 [1; 1]%nat = Ok b2 /\
    hk_LSTM rnn_params 128 b1 (HParamControllerInnerOptState.rnn_hidden_state s)
      = Ok (out1, h1) /\
    hk_LSTM rnn_params 128 b2 h1 = Ok (out2, h2) /\
    HParamControllerInnerOptState.rnn_hidden_state s1 = h1 /\
    HParamControllerInnerOptState.rnn_hidden_state s2 = h2.
Proof.
  intros (l1 & b1 & rp & h1 & lr1 & np1 & -> & Hb1 & Hrp & Hf1 & _ & ->)%HParam_update_Ok
         (l2 & b2 & rp' & h2 & lr2 & np2 & -> & Hb2 & Hrp' & Hf2 & _ & ->)%HParam_update_Ok.
  simpl in *. rewrite Hrp in Hrp'. injection Hrp' as <-.
  apply HParam_forward_fn_Ok in Hf1 as (o1 & ? & Hl1 & _).
  apply HParam_forward_fn_Ok in Hf2 as (o2 & ? & Hl2 & _).
  exists rp, l1, l2, b1, b2, o1, h1, o2, h2. done.
Qed.

(** X12: over two updates the momentum of [PerParamMLP] is the running
    average of both gradients: at every leaf [m] of the momentums,
    [(m * decay + g1 * (1 - decay)) * decay + g2 * (1 - decay)], where
    [g1] and [g2] are the arrays that the gradients of the two steps hold
    at the position of [m]. *)
Theorem PerParamMLP_momentum_two_steps parent theta1 theta2
  (s s1 s2 : PerParamState.t arr) g1 g2 ms1 ms2 :
  PerParamMLP._Opt_update parent theta1 s g1 ms1 = Ok s1 ->
  PerParamMLP._Opt_update parent theta2 s1 g2 ms2 = Ok s2 ->
  forall path m, jax.leaf_at path (PerParamState.momentums s) = Some m ->
    exists gl1 gl2 x1 y1 m1 x2 y2 m2,
      jax.leaf_at path g1 = Some gl1 /\
      jax.leaf_at path g2 = Some gl2 /\
      jnp_mul m (jnp_asarray (PerParamMLP.decay parent)) = Ok x1 /\
      jnp_mul gl1 (jnp_asarray (float_sub (float_lit 1) (PerParamMLP.decay parent)))
        = Ok y1 /\
      jnp_add x1 y1 = Ok m1 /\
      jnp_mul m1 (jnp_asarray (PerParamMLP.decay parent)) = Ok x2 /\
      jnp_mul gl2 (jnp_asarray (float_sub (float_lit 1) (PerParamMLP.decay parent)))
        = Ok y2 /\
      jnp_add x2 y2 = Ok m2 /\
      jax.leaf_at path (PerParamState.momentums s2) = Some m2.
Proof.
  intros (_ & _ & Hm1 & _)%PerParamMLP_update_leaves
         (_ & _ & Hm2 & _)%PerParamMLP_update_leaves path m Hm.
  destruct (Hm1 path m Hm) as (gl1 & x1 & y1 & m1 & Hgl1 & Hm1' & Hx1 & Hy1 & Ha1).
  destruct (Hm2 path m1 Hm1') as (gl2 & x2 & y2 & m2 & Hgl2 & Hm2' & Hx2 & Hy2 & Ha2).
  exists gl1, gl2, x1, y1, m1, x2, y2, m2. done.
Qed.

End Extras.

(** ** The further properties on the cells of the notebook *)

Lemma PerParamMLP_momentums_follow_params_witness :
  (exists s',
     PerParamMLP._Opt_update PerParamMLP.default cell14_theta
       none_first_momentum_state none_first_grads py_None = Ok s' /\
     jax.tree_structure (PerParamState.params s')
       = jax.tree_structure none_first_params /\
     jax.tree_structure (PerParamState.momentums s')
       = jax.tree_structure none_first_params) /\
  (exists s',
     opt_run (PerParamMLP.opt_fn PerParamMLP.default cell14_theta)
       cell14_opt_state cell14_two_steps = Ok s' /\
     jax.tree_structure (PerParamState.params s')
       = jax.tree_structure cell14_fake_params /\
     jax.tree_structure (PerParamState.momentums s')
       = jax.tree_structure (PerParamState.params s')).
Proof.
  destruct (@PerParamMLP_momentums_follow_params pyfloat sym nat _ _)
    as (_ & Hupd & Hrun).
  split.
  - destruct (PerParamMLP._Opt_update PerParamMLP.default cell14_theta
                none_first_momentum_state none_first_grads py_None)
      as [s'|e] eqn:E; [|vm_compute in E; discriminate].
    exists s'. split; [reflexivity|].
    destruct (Hupd _ _ _ _ _ _ E) as (Hp & Hm). split; [exact Hp | exact Hm].
  - destruct (opt_run (PerParamMLP.opt_fn PerParamMLP.default cell14_theta)
                cell14_opt_state cell14_two_steps) as [s'|e] eqn:E;
      [|vm_compute in E; discriminate].
    exists s'. split; [reflexivity|].
    exact (Hrun PerParamMLP.default cell14_theta cell14_fake_params py_None
             _ _ _ eq_refl E).
Defined.

Lemma run_from_init_counts_steps_witness :
  (exists s0 s',
     opt_init (MetaSGDWD.opt_fn cell7_theta) cell7_fake_params py_None = Ok s0 /\
     opt_run (MetaSGDWD.opt_fn cell7_theta) s0 cell7_two_steps = Ok s' /\
     LOptState.iteration s' = 2%Z) /\
  (exists s0 s',
     opt_init (PerParamMLP.opt_fn PerParamMLP.default cell14_theta)
       cell14_fake_params py_None = Ok s0 /\
     opt_run (PerParamMLP.opt_fn PerParamMLP.default cell14_theta) s0
       cell14_two_steps = Ok s' /\
     PerParamState.iteration s' = 2%Z) /\
  (exists s0 s',
     opt_init (HParamControllerLOPT.opt_fn cell24_theta) cell24_params py_None
       = Ok s0 /\
     opt_run (HParamControllerLOPT.opt_fn cell24_theta) s0 cell24_two_steps
       = Ok s' /\
     HParamControllerInnerOptState.iteration s' = 2%Z).
Proof.
  destruct (@run_from_init_counts_steps pyfloat sym nat _ _) as (Hm & Hp & Hr).
  split; [|split].
  - exists cell7_opt_state.
    destruct (opt_run (MetaSGDWD.opt_fn cell7_theta) cell7_opt_state
                cell7_two_steps) as [s'|e] eqn:E; [|vm_compute in E; discriminate].
    exists s'. split; [reflexivity|]. split; [reflexivity|].
    destruct (Hm cell7_theta cell7_fake_params py_None _ _ _ eq_refl E) as [_ H].
    apply H. vm_compute. discriminate.
  - exists cell14_opt_state.
    destruct (opt_run (PerParamMLP.opt_fn PerParamMLP.default cell14_theta)
                cell14_opt_state cell14_two_steps) as [s'|e] eqn:E;
      [|vm_compute in E; discriminate].
    exists s'. split; [reflexivity|]. split; [reflexivity|].
    destruct (Hp PerParamMLP.default cell14_theta cell14_fake_params py_None
                _ _ _ eq_refl E) as [_ H].
    apply H. vm_compute. discriminate.
  - exists cell24_opt_state.
    destruct (opt_run (HParamControllerLOPT.opt_fn cell24_theta) cell24_opt_state
                cell24_two_steps) as [s'|e] eqn:E; [|vm_compute in E; discriminate].
    exists s'. split; [reflexivity|]. split; [reflexivity|].
    destruct (Hr cell24_theta cell24_params py_None _ _ _ eq_refl E) as [_ H].
    apply H. vm_compute. discriminate.
Defined.

Lemma run_keeps_tree_structure_witness :
  (exists s',
     opt_run (MetaSGDWD.opt_fn cell7_theta) cell7_opt_state cell7_two_steps
       = Ok s' /\
     jax.tree_structure (LOptState.params s')
       = jax.tree_structure cell7_fake_params) /\
  (exists s',
     opt_run (PerParamMLP.opt_fn PerParamMLP.default cell14_theta)
       cell14_opt_state cell14_two_steps = Ok s' /\
     jax.tree_structure (PerParamState.params s')
       = jax.tree_structure cell14_fake_params /\
     jax.tree_structure (PerParamState.momentums s')
       = jax.tree_structure cell14_fake_params) /\
  (exists s',
     opt_run (HParamControllerLOPT.opt_fn cell24_theta) cell24_opt_state
       cell24_two_steps = Ok s' /\
     jax.tree_structure (HParamControllerInnerOptState.params s')
       = jax.tree_structure cell24_params) /\
  (exists s',
     opt_run (MetaSGDWD.opt_fn cell7_theta) none_first_state
       [(none_first_grads, no_kwargs)] = Ok s' /\
     jax.tree_structure (LOptState.params s')
       = jax.tree_structure none_first_params).
Proof.
  destruct (@run_keeps_tree_structure pyfloat sym nat _ _) as (Hm & Hp & Hr).
  split; [|split; [|split]].
  - destruct (opt_run (MetaSGDWD.opt_fn cell7_theta) cell7_opt_state
                cell7_two_steps) as [s'|e] eqn:E; [|vm_compute in E; discriminate].
    exists s'. split; [reflexivity|]. exact (Hm _ _ _ _ E).
  - destruct (opt_run (PerParamMLP.opt_fn PerParamMLP.default cell14_theta)
                cell14_opt_state cell14_two_steps) as [s'|e] eqn:E;
      [|vm_compute in E; discriminate].
    exists s'. split; [reflexivity|].
    destruct (Hp _ _ _ _ _ E) as (H1 & H2). split; [exact H1 | exact H2].
  - destruct (opt_run (HParamControllerLOPT.opt_fn cell24_theta) cell24_opt_state
                cell24_two_steps) as [s'|e] eqn:E; [|vm_compute in E; discriminate].
    exists s'. split; [reflexivity|]. exact (Hr _ _ _ _ E).
  - destruct (opt_run (MetaSGDWD.opt_fn cell7_theta) none_first_state
                [(none_first_grads, no_kwargs)]) as [s'|e] eqn:E;
      [|vm_compute in E; discriminate].
    exists s'. split; [reflexivity|]. exact (Hm _ _ _ _ E).
Defined.

Lemma HParam_controller_ignores_params_and_grads_witness :
  exists s1' s2' lr x1 x2 v1 v2,
    HParamControllerLOPT._Opt_update cell24_theta cell24_opt_state
      cell24_fake_grads (Leaf (pyf 1.0)) py_None = Ok s1' /\
    HParamControllerLOPT._Opt_update cell24_theta
      (HParamControllerInnerOptState.mk none_first_params (Leaf (pyf 5.0)) 7
         cell24_initial_state)
      none_first_grads (Leaf (pyf 1.0)) py_None = Ok s2' /\
    HParamControllerInnerOptState.rnn_hidden_state s1'
      = HParamControllerInnerOptState.rnn_hidden_state s2' /\
    jax.leaf_at [0%nat] (HParamControllerInnerOptState.params s1') = Some v1 /\
    jnp_mul (neg (ones [3; 2]%nat)) lr = Ok x1 /\
    jnp_sub (ones [3; 2]%nat) x1 = Ok v1 /\
    jax.leaf_at [1%nat] (HParamControllerInnerOptState.params s2') = Some v2 /\
    jnp_mul (neg (ones [2%nat])) lr = Ok x2 /\
    jnp_sub (ones [2%nat]) x2 = Ok v2.
Proof.
  destruct (HParamControllerLOPT._Opt_update cell24_theta cell24_opt_state
              cell24_fake_grads (Leaf (pyf 1.0)) py_None) as [s1'|e] eqn:E1;
    [|vm_compute in E1; discriminate].
  destruct (HParamControllerLOPT._Opt_update cell24_theta
              (HParamControllerInnerOptState.mk none_first_params (Leaf (pyf 5.0)) 7
                 cell24_initial_state)
              none_first_grads (Leaf (pyf 1.0)) py_None) as [s2'|e] eqn:E2;
    [|vm_compute in E2; discriminate].
  destruct (HParam_controller_ignores_params_and_grads
              _ _ _ _ _ _ _ _ _ _ _ _ _ _ _ E1 E2) as (Hh & lr & H1 & H2).
  destruct (H1 [0%nat] (ones [3; 2]%nat) eq_refl)
    as (gl1 & x1 & v1 & Hgl1 & Hv1 & Hx1 & Hs1).
  destruct (H2 [1%nat] (ones [2%nat]) eq_refl)
    as (gl2 & x2 & v2 & Hgl2 & Hv2 & Hx2 & Hs2).
  injection Hgl1 as <-. injection Hgl2 as <-.
  exists s1', s2', lr, x1, x2, v1, v2. done.
Defined.

Lemma PerParamMLP_momentums_ignore_network_witness :
  exists s1' s2',
    PerParamMLP._Opt_update PerParamMLP.default cell14_theta cell14_opt_state
      cell14_fake_grads py_None = Ok s1' /\
    PerParamMLP._Opt_update (PerParamMLP.__init__ (FLit 0.9) 32)
      (dict [("nn", Leaf (SVar "other_nn" []))])
      (PerParamState.mk cell14_fake_grads (Leaf (pyf 5.0)) 7
         (PerParamState.momentums cell14_opt_state))
      cell14_fake_grads py_None = Ok s2' /\
    PerParamState.momentums s1' = PerParamState.momentums s2'.
Proof.
  destruct (PerParamMLP._Opt_update PerParamMLP.default cell14_theta
              cell14_opt_state cell14_fake_grads py_None) as [s1'|e] eqn:E1;
    [|vm_compute in E1; discriminate].
  destruct (PerParamMLP._Opt_update (PerParamMLP.__init__ (FLit 0.9) 32)
              (dict [("nn", Leaf (SVar "other_nn" []))])
              (PerParamState.mk cell14_fake_grads (Leaf (pyf 5.0)) 7
                 (PerParamState.momentums cell14_opt_state))
              cell14_fake_grads py_None) as [s2'|e] eqn:E2;
    [|vm_compute in E2; discriminate].
  exists s1', s2'. split; [reflexivity|]. split; [reflexivity|].
  exact (PerParamMLP_momentums_ignore_network
           PerParamMLP.default (PerParamMLP.__init__ (FLit 0.9) 32)
           _ _ _ _ _ _ _ _ _ _ _ _ _ _ eq_refl E1 E2).
Defined.

Lemma MetaSGDWD_update_reads_theta_first_witness :
  MetaSGDWD._Opt_update empty_params cell7_opt_state mismatched_grads py_None
    = Raise KeyError /\
  MetaSGDWD._Opt_update (dict [("log_lr", Leaf (pyf 0.001))]) cell7_opt_state
    cell7_fake_grads py_None = Raise KeyError /\
  MetaSGDWD._Opt_update py_None cell7_opt_state cell7_fake_grads py_None
    = Raise TypeError.
Proof.
  split; [|split].
  - destruct (MetaSGDWD_update_reads_theta_first empty_params cell7_opt_state
                mismatched_grads py_None) as (_ & _ & H).
    apply (H []); [reflexivity | apply not_elem_of_nil].
  - destruct (MetaSGDWD_update_reads_theta_first
                (dict [("log_lr", Leaf (pyf 0.001))]) cell7_opt_state
                cell7_fake_grads py_None) as (_ & H & _).
    apply (H (pyf 0.001) KeyError); reflexivity.
  - destruct (MetaSGDWD_update_reads_theta_first py_None cell7_opt_state
                cell7_fake_grads py_None) as (H & _).
    apply H. reflexivity.
Defined.

Lemma PerParamMLP_update_without_leaves_witness :
  PerParamMLP._Opt_update PerParamMLP.default py_None
    (PerParamMLP._Opt_init empty_params py_None) empty_params py_None
  = Ok (PerParamState.mk empty_params py_None 1 empty_params).
Proof.
  exact (PerParamMLP_update_without_leaves PerParamMLP.default py_None
           (PerParamMLP._Opt_init empty_params py_None) empty_params py_None
           eq_refl eq_refl eq_refl).
Defined.

Lemma MetaSGDWD_init_then_update_witness :
  is_Ok (MetaSGDWD._Opt_update (MetaSGDWD.init MetaSGDWD.default 0%nat)
           cell7_opt_state cell7_fake_grads py_None) /\
  (exists s' x y z v,
     MetaSGDWD._Opt_update (MetaSGDWD.init MetaSGDWD.default 0%nat)
       none_first_state none_first_grads py_None = Ok s' /\
     jax.leaf_at [1%nat] (LOptState.params s') = Some v /\
     jnp_mul (neg (ones [2%nat])) (jnp_exp (jnp_log (pyf 0.001))) = Ok x /\
     jnp_sub (ones [2%nat]) x = Ok y /\
     jnp_mul (ones [2%nat]) (jnp_exp (jnp_log (pyf 0.01))) = Ok z /\
     jnp_sub y z = Ok v).
Proof.
  split.
  - apply MetaSGDWD_init_then_update; [reflexivity|].
    repeat constructor; do 4 eexists; repeat split; reflexivity.
  - destruct (MetaSGDWD._Opt_update (MetaSGDWD.init MetaSGDWD.default 0%nat)
                none_first_state none_first_grads py_None) as [s'|e] eqn:E;
      [|vm_compute in E; discriminate].
    destruct (proj2 (MetaSGDWD_init_then_update MetaSGDWD.default 0%nat
                       none_first_state none_first_grads py_None) s' E)
      as (_ & Hi).
    destruct (Hi [1%nat] (ones [2%nat]) eq_refl)
      as (gl & x & y & z & v & Hgl & Hv & H).
    injection Hgl as <-.
    exists s', x, y, z, v. split; [reflexivity|]. split; [exact Hv | exact H].
Defined.

Lemma learned_optimizer_init_provides_entries_witness :
  (exists theta rnn_params,
     HParamControllerLOPT.init 0%nat = Ok theta /\
     getitem theta "rnn_params" = Ok rnn_params /\
     HParamControllerLOPT._Opt_init theta cell24_params py_None
     = Ok cell24_opt_state) /\
  (exists theta nn,
     PerParamMLP.init PerParamMLP.default 0%nat = Ok theta /\
     getitem theta "nn" = Ok nn).
Proof.
  destruct (@learned_optimizer_init_provides_entries pyfloat sym nat _ _)
    as (Hr & Hp & _).
  split.
  - destruct (HParamControllerLOPT.init 0%nat) as [theta|e] eqn:E;
      [|vm_compute in E; discriminate].
    destruct (Hr _ _ E) as (rp & _ & Hrp & _ & Hinit).
    exists theta, rp. split; [reflexivity|]. split; [exact Hrp|]. apply Hinit.
  - destruct (PerParamMLP.init PerParamMLP.default 0%nat) as [theta|e] eqn:E;
      [|vm_compute in E; discriminate].
    destruct (Hp _ _ _ E) as (nn & _ & _ & Hnn).
    exists theta, nn. split; [reflexivity | exact Hnn].
Defined.

Lemma HParam_hidden_state_threads_witness :
  exists s1 s2 b2 out2,
    HParamControllerLOPT._Opt_update cell24_theta cell24_opt_state
      cell24_fake_grads (Leaf (pyf 1.0)) py_None = Ok s1 /\
    HParamControllerLOPT._Opt_update cell24_theta s1
      cell24_fake_grads (Leaf (pyf 0.5)) py_None = Ok s2 /\
    jnp_reshape (pyf 0.5) [1; 1]%nat = Ok b2 /\
    hk_LSTM (Leaf (SVar "rnn_params" [])) 128 b2
      (HParamControllerInnerOptState.rnn_hidden_state s1)
    = Ok (out2, HParamControllerInnerOptState.rnn_hidden_state s2).
Proof.
  destruct (HParamControllerLOPT._Opt_update cell24_theta cell24_opt_state
              cell24_fake_grads (Leaf (pyf 1.0)) py_None) as [s1|e] eqn:E1;
    [|vm_compute in E1; discriminate].
  destruct (HParamControllerLOPT._Opt_update cell24_theta s1
              cell24_fake_grads (Leaf (pyf 0.5)) py_None) as [s2|e] eqn:E2.
  - destruct (HParam_hidden_state_threads _ _ _ _ _ _ _ _ _ _ E1 E2)
      as (rp & l1 & l2 & b1 & b2 & o1 & h1 & o2 & h2
          & Hrp & _ & Hl2 & _ & Hb2 & _ & Hlstm & <- & <-).
    injection Hrp as <-. injection Hl2 as <-.
    exists s1, s2, b2, o2. done.
  - exfalso. vm_compute in E1. injection E1 as <-. vm_compute in E2. discriminate.
Defined.

Lemma PerParamMLP_momentum_two_steps_witness :
  (exists s1 s2 x1 y m1 x2 m2,
     PerParamMLP._Opt_update PerParamMLP.default cell14_theta cell14_opt_state
       cell14_fake_grads py_None = Ok s1 /\
     PerParamMLP._Opt_update PerParamMLP.default cell14_theta s1
       cell14_fake_grads py_None = Ok s2 /\
     jnp_mul (SZeros [2; 3]%nat) (SFloat (FLit 0.9)) = Ok x1 /\
     jnp_mul (neg (ones [2; 3]%nat)) (SFloat (FSub (FLit 1) (FLit 0.9))) = Ok y /\
     jnp_add x1 y = Ok m1 /\
     jnp_mul m1 (SFloat (FLit 0.9)) = Ok x2 /\
     jnp_add x2 y = Ok m2 /\
     jax.leaf_at [0%nat] (PerParamState.momentums s2) = Some m2) /\
  (exists s1 s2 x1 y m1 x2 m2,
     PerParamMLP._Opt_update PerParamMLP.default cell14_theta
       none_first_momentum_state none_first_grads py_None = Ok s1 /\
     PerParamMLP._Opt_update PerParamMLP.default cell14_theta s1
       none_first_grads py_None = Ok s2 /\
     jnp_mul (SZeros [2%nat]) (SFloat (FLit 0.9)) = Ok x1 /\
     jnp_mul (neg (ones [2%nat])) (SFloat (FSub (FLit 1) (FLit 0.9))) = Ok y /\
     jnp_add x1 y = Ok m1 /\
     jnp_mul m1 (SFloat (FLit 0.9)) = Ok x2 /\
     jnp_add x2 y = Ok m2 /\
     jax.leaf_at [1%nat] (PerParamState.momentums s2) = Some m2).
Proof.
  split.
  - destruct (PerParamMLP._Opt_update PerParamMLP.default cell14_theta
                cell14_opt_state cell14_fake_grads py_None) as [s1|e] eqn:E1;
      [|vm_compute in E1; discriminate].
    destruct (PerParamMLP._Opt_update PerParamMLP.default cell14_theta s1
                cell14_fake_grads py_None) as [s2|e] eqn:E2.
    + destruct (PerParamMLP_momentum_two_steps _ _ _ _ _ _ _ _ _ _ E1 E2
                  [0%nat] (SZeros [2; 3]%nat) eq_refl)
        as (gl1 & gl2 & x1 & y1 & m1 & x2 & y2 & m2
            & Hgl1 & Hgl2 & Hx1 & Hy1 & Ha1 & Hx2 & Hy2 & Ha2 & Hm2).
      injection Hgl1 as <-. injection Hgl2 as <-.
      assert (y2 = y1) as -> by congruence.
      exists s1, s2, x1, y1, m1, x2, m2.
      split; [reflexivity|]. split; [exact E2|]. done.
    + exfalso. vm_compute in E1. injection E1 as <-. vm_compute in E2. discriminate.
  - destruct (PerParamMLP._Opt_update PerParamMLP.default cell14_theta
                none_first_momentum_state none_first_grads py_None)
      as [s1|e] eqn:E1; [|vm_compute in E1; discriminate].
    destruct (PerParamMLP._Opt_update PerParamMLP.default cell14_theta s1
                none_first_grads py_None) as [s2|e] eqn:E2.
    + destruct (PerParamMLP_momentum_two_steps _ _ _ _ _ _ _ _ _ _ E1 E2
                  [1%nat] (SZeros [2%nat]) eq_refl)
        as (gl1 & gl2 & x1 & y1 & m1 & x2 & y2 & m2
            & Hgl1 & Hgl2 & Hx1 & Hy1 & Ha1 & Hx2 & Hy2 & Ha2 & Hm2).
      injection Hgl1 as <-. injection Hgl2 as <-.
      assert (y2 = y1) as -> by congruence.
      exists s1, s2, x1, y1, m1, x2, m2.
      split; [reflexivity|]. split; [exact E2|]. done.
    + exfalso. vm_compute in E1. injection E1 as <-. vm_compute in E2. discriminate.
Defined.
